(** * LemonData model search: a shallow embedding of [skill/scripts/search_api.py]

    The script fetches a model catalog and a price list, classifies every
    model by keywords of its identifier, and filters and prints the result.
    Each Python function is embedded below under its own name.

    Conventions.
    - A Python [str] is a Rocq [string]; [x in s] is substring containment.
    - A JSON record ([Dict] in the annotations) is a [gmap string pyval]
      whose values are the JSON scalars.
    - An exception is a value of [exn]; a call that may raise returns a
      [result].
    - [str.lower] and the text of a float are functions of the Python
      runtime; they are the two fields of [PyRuntime] and every definition
      is parametric in them. *)

From Stdlib Require Import PrimFloat.
From stdpp Require Import gmap strings list fin_maps pretty.


(** ** Values, exceptions and results *)

Inductive pyval : Type :=
  | PyNone
  | PyBool (b : bool)
  | PyInt (z : Z)
  | PyFloat (f : float)
  | PyStr (s : string).

Inductive exn : Type :=
  | RequestException (msg : string)
  | Exception (msg : string)
  | KeyError (key : string)
  | AttributeError (msg : string)
  | TypeError (msg : string)
  | ValueError (msg : string).

Inductive result (A : Type) : Type :=
  | Ok (a : A)
  | Raise (e : exn).

Arguments Ok {A} a.
Arguments Raise {A} e.

Definition bind {A B : Type} (r : result A) (k : A → result B) : result B :=
  match r with
  | Ok a => k a
  | Raise e => Raise e
  end.

Notation "x ←! r ; k" := (bind r (fun x => k))
  (at level 100, r at next level, k at level 200, right associativity).

(** What the interpreter supplies: [str.lower], which keeps the empty
    string, and [str] of a float. *)
Class PyRuntime : Type := {
  str_lower : string → string;
  float_str : float → string;
  str_lower_empty : str_lower "" = ""
}.

(** [bool(v)]. *)
Definition truthy (v : pyval) : bool :=
  match v with
  | PyNone => false
  | PyBool b => b
  | PyInt z => negb (z =? 0)%Z
  | PyFloat f => negb (PrimFloat.eqb f 0%float)
  | PyStr s => negb (String.eqb s "")
  end.

(** [type(v).__name__], as it appears in the text of an AttributeError. *)
Definition type_name (v : pyval) : string :=
  match v with
  | PyNone => "NoneType"
  | PyBool _ => "bool"
  | PyInt _ => "int"
  | PyFloat _ => "float"
  | PyStr _ => "str"
  end.

(** [x in s] on strings. *)
Fixpoint str_in (x s : string) : bool :=
  String.prefix x s ||
  match s with
  | EmptyString => false
  | String _ s' => str_in x s'
  end.

(** [any(x in s for x in xs)]. *)
Definition any_in (xs : list string) (s : string) : bool :=
  existsb (fun x => str_in x s) xs.

Section Runtime.
Context `{PyRuntime}.

(** [str(v)], as an f-string field renders a value. *)
Definition py_str (v : pyval) : string :=
  match v with
  | PyNone => "None"
  | PyBool true => "True"
  | PyBool false => "False"
  | PyInt z => pretty z
  | PyFloat f => float_str f
  | PyStr s => s
  end.

(** [v.lower()]: only a [str] has the method. *)
Definition py_lower (v : pyval) : result string :=
  match v with
  | PyStr s => Ok (str_lower s)
  | _ => Raise (AttributeError
                  ("'" +:+ type_name v +:+ "' object has no attribute 'lower'"))
  end.

(** ** Classifier *)

Definition get_model_category (model_id owned_by : pyval) : result string :=
  model_lower ←! py_lower model_id;
  (* Video generation *)
  if any_in ["sora"; "runway"; "kling"; "luma"; "pika"; "video"] model_lower
  then Ok "🎬 Video Generation"
  (* Music generation *)
  else if any_in ["suno"; "music"; "udio"] model_lower
  then Ok "🎵 Music Generation"
  (* 3D models *)
  else if any_in ["tripo"; "3d"; "mesh"] model_lower
  then Ok "🗿 3D Models"
  (* Image generation *)
  else if any_in ["dall-e"; "dalle"; "midjourney"; "flux"; "sd"; "stable";
                  "imagen"; "ideogram"] model_lower
  then Ok "🎨 Image Generation"
  (* Audio *)
  else if any_in ["tts"; "whisper"; "speech"; "audio"] model_lower
  then Ok "🎤 Audio Processing"
  (* Embeddings *)
  else if any_in ["embedding"; "embed"] model_lower
  then Ok "📊 Embeddings"
  (* Rerank *)
  else if str_in "rerank" model_lower
  then Ok "🔄 Rerank"
  (* Default to chat models *)
  else Ok "💬 Chat Completion".

(** ** Enricher *)

(** [d.get(key, default)]. *)
Definition dict_get (d : gmap string pyval) (key : string) (dflt : pyval)
  : pyval :=
  default dflt (d !! key).

(** [d[key]]. *)
Definition dict_item (d : gmap string pyval) (key : string) : result pyval :=
  match d !! key with
  | Some v => Ok v
  | None => Raise (KeyError key)
  end.

(** [pricing.get(model_id, {})] for a [model_id] that is a JSON scalar, as
    every [pyval] is, and so can be hashed: the keys of [pricing] are
    strings, so a key of another type finds nothing. *)
Definition pricing_get (pricing : gmap string (gmap string pyval))
    (model_id : pyval) : gmap string pyval :=
  match model_id with
  | PyStr s => default ∅ (pricing !! s)
  | _ => ∅
  end.

(** [for x in xs: out.append(f(x))], stopping at the first exception. *)
Fixpoint for_each {A B : Type} (f : A → result B) (xs : list A)
  : result (list B) :=
  match xs with
  | [] => Ok []
  | x :: xs' =>
      y ←! f x;
      ys ←! for_each f xs';
      Ok (y :: ys)
  end.

(** The body of the loop of [enrich_models]. *)
Definition enrich_model (pricing : gmap string (gmap string pyval))
    (model : gmap string pyval) : result (gmap string pyval) :=
  let model_id := dict_get model "id" (PyStr "") in
  let owned_by := dict_get model "owned_by" (PyStr "") in
  let price_info := pricing_get pricing model_id in
  category ←! get_model_category model_id owned_by;
  Ok (<["id" := model_id]>
      (<["owned_by" := owned_by]>
      (<["category" := PyStr category]>
      (<["input_price" := dict_get price_info "input_per_1m" PyNone]>
      (<["output_price" := dict_get price_info "output_per_1m" PyNone]>
      (<["per_request" := dict_get price_info "per_request" PyNone]>
      (<["is_lock_price" :=
           dict_get price_info "is_lock_price" (PyBool false)]> ∅))))))).

Definition enrich_models (models : list (gmap string pyval))
    (pricing : gmap string (gmap string pyval))
  : result (list (gmap string pyval)) :=
  for_each (enrich_model pricing) models.

(** ** Search engine *)

(** [[m for m in ms if p(m)]], stopping at the first exception. *)
Fixpoint filter_r {A : Type} (p : A → result bool) (ms : list A)
  : result (list A) :=
  match ms with
  | [] => Ok []
  | m :: ms' =>
      keep ←! p m;
      rest ←! filter_r p ms';
      Ok (if keep then m :: rest else rest)
  end.

(** [if s:] on an [Optional[str]]: [None] and the empty string are false. *)
Definition given (s : option string) : option string :=
  match s with
  | Some s' => if String.eqb s' "" then None else Some s'
  | None => None
  end.

(** [category_lower in m.get("category", "").lower()]. *)
Definition category_matches (category_lower : string)
    (m : gmap string pyval) : result bool :=
  c ←! py_lower (dict_get m "category" (PyStr ""));
  Ok (str_in category_lower c).

(** The three-way [or] of the keyword filter, left to right. *)
Definition keyword_matches (keyword_lower : string)
    (m : gmap string pyval) : result bool :=
  i ←! py_lower (dict_get m "id" (PyStr ""));
  if str_in keyword_lower i then Ok true
  else
    o ←! py_lower (dict_get m "owned_by" (PyStr ""));
    if str_in keyword_lower o then Ok true
    else
      c ←! py_lower (dict_get m "category" (PyStr ""));
      Ok (str_in keyword_lower c).

Definition search_models (models : list (gmap string pyval))
    (keyword category : option string) : result (list (gmap string pyval)) :=
  let results := models in
  results ←!
    match given category with
    | Some category =>
        let category_lower := str_lower category in
        filter_r (category_matches category_lower) results
    | None => Ok results
    end;
  results ←!
    match given keyword with
    | Some keyword =>
        let keyword_lower := str_lower keyword in
        filter_r (keyword_matches keyword_lower) results
    | None => Ok results
    end;
  Ok results.

(** ** Presenter *)

Definition nl : string := String (Ascii.ascii_of_nat 10) "".

(** The value of [price_str] in [format_model_info]. *)
Definition price_str (model : gmap string pyval) : result string :=
  if truthy (dict_get model "is_lock_price" PyNone)
     && truthy (dict_get model "per_request" PyNone)
  then
    per_request ←! dict_item model "per_request";
    Ok ("$" +:+ py_str per_request +:+ "/request")
  else if truthy (dict_get model "input_price" PyNone)
  then
    input_price ←! dict_item model "input_price";
    Ok ("Input $" +:+ py_str input_price +:+ "/1M, Output $"
        +:+ py_str (dict_get model "output_price" (PyStr "N/A")) +:+ "/1M")
  else Ok "Pricing TBD".

Definition format_model_info (model : gmap string pyval) (index : Z)
  : result string :=
  let prefix := if (index >? 0)%Z then pretty index +:+ ". " else "" in
  price ←! price_str model;
  id ←! dict_item model "id";
  category ←! dict_item model "category";
  owned_by ←! dict_item model "owned_by";
  Ok (prefix +:+ "**" +:+ py_str id +:+ "**" +:+ nl
      +:+ "   - Category: " +:+ py_str category +:+ nl
      +:+ "   - Provider: " +:+ py_str owned_by +:+ nl
      +:+ "   - Pricing: " +:+ price +:+ nl
      +:+ "   - Docs: https://docs.lemondata.cc/api-reference").

Definition endpoints : gmap string string :=
  <["💬 Chat Completion" := "/v1/chat/completions"]>
  (<["🎨 Image Generation" := "/v1/images/generations"]>
  (<["🎬 Video Generation" := "/v1/video/generations"]>
  (<["🎵 Music Generation" := "/v1/music/generations"]>
  (<["🗿 3D Models" := "/v1/3d/generations"]>
  (<["🎤 Audio Processing" :=
       "/v1/audio/speech or /v1/audio/transcriptions"]>
  (<["📊 Embeddings" := "/v1/embeddings"]>
  (<["🔄 Rerank" := "/v1/rerank"]> ∅))))))).

(** [endpoints.get(category, "/v1/chat/completions")]; the keys are
    strings, so a category of another type takes the default. *)
Definition get_api_endpoint (category : pyval) : string :=
  match category with
  | PyStr c => default "/v1/chat/completions" (endpoints !! c)
  | _ => "/v1/chat/completions"
  end.

End Runtime.

(** ** Catalog client *)

Definition MODELS_API_URL : string := "https://api.lemondata.cc/v1/models".
Definition PRICING_API_URL : string := "https://api.lemondata.cc/v1/pricing".

(** A response of the [requests] library whose body parses to a [B]:
    [raise_for_status] raises an HTTPError, with text [error_text], on a
    status from 400 to 599; [json] is the parsed body or the exception that
    parsing raises. *)
Record Response (B : Type) : Type := {
  status_code : Z;
  error_text : string;
  json : result B
}.

Arguments status_code {B} _.
Arguments error_text {B} _.
Arguments json {B} _.

Definition raise_for_status {B : Type} (response : Response B) : result unit :=
  if (400 <=? status_code response)%Z && (status_code response <? 600)%Z
  then Raise (RequestException (error_text response))
  else Ok tt.

(** An item of the price list: [{"model": ..., "pricing": {...}}]. *)
Record pricing_item : Type := {
  item_model : option string;
  item_pricing : option (gmap string pyval)
}.

(** [requests.get(url, headers=headers, timeout=timeout)] at the two
    endpoints; a body is a JSON object whose members are arrays of items. *)
Record Network : Type := {
  get_models : string → gmap string string → Z →
               result (Response (gmap string (list (gmap string pyval))));
  get_pricing : string → gmap string string → Z →
                result (Response (gmap string (list pricing_item)))
}.

(** [except requests.exceptions.RequestException as e: h(e)]. *)
Definition except_request {A : Type} (r : result A) (h : string → result A)
  : result A :=
  match r with
  | Raise (RequestException e) => h e
  | _ => r
  end.

Definition auth_headers (api_key : option string) : gmap string string :=
  let headers := ∅ in
  match given api_key with
  | Some api_key => <["Authorization" := "Bearer " +:+ api_key]> headers
  | None => headers
  end.

Definition fetch_models (net : Network) (api_key : option string)
  : result (list (gmap string pyval)) :=
  let headers := auth_headers api_key in
  except_request
    (response ←! get_models net MODELS_API_URL headers 30%Z;
     _ ←! raise_for_status response;
     data ←! json response;
     Ok (default [] (data !! "data")))
    (fun e => Raise (Exception ("Failed to fetch model list: " +:+ e))).

(** [pricing[item["model"]] = item.get("pricing", {})]. *)
Definition add_pricing (pricing : gmap string (gmap string pyval))
    (item : pricing_item) : result (gmap string (gmap string pyval)) :=
  match item_model item with
  | Some model => Ok (<[model := default ∅ (item_pricing item)]> pricing)
  | None => Raise (KeyError "model")
  end.

(** [for x in xs: acc = f(acc, x)], stopping at the first exception. *)
Fixpoint fold_r {A S : Type} (f : S → A → result S) (acc : S) (xs : list A)
  : result S :=
  match xs with
  | [] => Ok acc
  | x :: xs' => acc' ←! f acc x; fold_r f acc' xs'
  end.

Definition fetch_pricing (net : Network) (api_key : option string)
  : result (gmap string (gmap string pyval)) :=
  let headers := auth_headers api_key in
  except_request
    (response ←! get_pricing net PRICING_API_URL headers 30%Z;
     _ ←! raise_for_status response;
     data ←! json response;
     let pricing := ∅ in
     fold_r add_pricing pricing (default [] (data !! "data")))
    (fun _ => Ok ∅).

(** ** Command line entry *)

(** A run prints lines and ends normally, by [sys.exit], or with an
    exception nobody caught. *)
Inductive outcome (A : Type) : Type :=
  | Done (a : A)
  | Exit (code : Z)
  | Uncaught (e : exn).

Arguments Done {A} a.
Arguments Exit {A} code.
Arguments Uncaught {A} e.

Definition io (A : Type) : Type := list string → list string * outcome A.

Definition io_bind {A B : Type} (m : io A) (k : A → io B) : io B :=
  fun out =>
    match m out with
    | (out', Done a) => k a out'
    | (out', Exit code) => (out', Exit code)
    | (out', Uncaught e) => (out', Uncaught e)
    end.

Notation "x ←$ m ; k" := (io_bind m (fun x => k))
  (at level 100, m at next level, k at level 200, right associativity).
Notation "m ;$ k" := (io_bind m (fun _ => k))
  (at level 100, k at level 200, right associativity).

Definition io_ret {A : Type} (a : A) : io A := fun out => (out, Done a).

Definition print (line : string) : io unit :=
  fun out => (out ++ [line], Done tt).

Definition sys_exit {A : Type} (code : Z) : io A :=
  fun out => (out, Exit code).

Definition lift {A : Type} (r : result A) : io A :=
  fun out =>
    match r with
    | Ok a => (out, Done a)
    | Raise e => (out, Uncaught e)
    end.

(** [try: m except Exception as e: h(e)]. *)
Definition try_except {A : Type} (m : io A) (h : exn → io A) : io A :=
  fun out =>
    match m out with
    | (out', Uncaught e) => h e out'
    | r => r
    end.

Fixpoint io_for {A : Type} (xs : list A) (body : A → io unit) : io unit :=
  match xs with
  | [] => io_ret tt
  | x :: xs' => body x ;$ io_for xs' body
  end.

(** [str(e)]; the text of a KeyError is the quoted key. *)
Definition exn_str (e : exn) : string :=
  match e with
  | RequestException msg => msg
  | Exception msg => msg
  | KeyError key => "'" +:+ key +:+ "'"
  | AttributeError msg => msg
  | TypeError msg => msg
  | ValueError msg => msg
  end.

(** [sorted(set(xs))] on strings. *)
Fixpoint insert_sorted (x : string) (xs : list string) : list string :=
  match xs with
  | [] => [x]
  | y :: ys =>
      match String.compare x y with
      | Lt => x :: y :: ys
      | Eq => y :: ys
      | Gt => y :: insert_sorted x ys
      end
  end.

Definition sorted_set (xs : list string) : list string :=
  foldr insert_sorted [] xs.

(** [m["category"]] of a record that [enrich_models] built, where it is a
    [str]. *)
Definition category_of (m : gmap string pyval) : result string :=
  c ←! dict_item m "category";
  match c with
  | PyStr s => Ok s
  | _ => Raise (TypeError "category is not a str")
  end.

Definition usage : list string :=
  [ "Usage:";
    "  python search_api.py [keyword] [category]";
    "";
    "Description:";
    "  Script automatically fetches the latest model list from LemonData API";
    "";
    "Examples:";
    "  python search_api.py                    # List all models";
    "  python search_api.py GPT                # Search for models containing GPT";
    "  python search_api.py claude             # Search for Claude models";
    "  python search_api.py '' video           # Search for video generation models";
    "  python search_api.py flux image         # Search for Flux in image generation" ].

Section Entry.
Context `{PyRuntime}.

(** The [try] block of [main] and its handler. *)
Definition load (net : Network) : io (list (gmap string pyval)) :=
  print "Fetching latest model list from LemonData..." ;$
  try_except
    (models ←$ lift (fetch_models net None);
     pricing ←$ lift (fetch_pricing net None);
     models ←$ lift (enrich_models models pricing);
     print ("✓ Success, found " +:+ pretty (length models) +:+ " models") ;$
     print "" ;$
     io_ret models)
    (fun e => print ("✗ " +:+ exn_str e) ;$ sys_exit 1%Z).

(** The branch of [main] for [if keyword or category]. *)
Definition show_search (models : list (gmap string pyval))
    (keyword category : option string) : io unit :=
  results ←$ lift (search_models models keyword category);
  print ("Search results: " +:+ pretty (length results)
         +:+ " matching models") ;$
  print "" ;$
  (if (length results =? 0)%nat
   then
     print "No matching models found, try different keywords" ;$
     print "" ;$
     print "Available categories:" ;$
     labels ←$ lift (for_each category_of models);
     let categories := sorted_set labels in
     io_for categories (fun cat =>
       let count := length (filter (fun l => l = cat) labels) in
       print ("  - " +:+ cat +:+ " (" +:+ pretty count +:+ " models)")) ;$
     sys_exit 0%Z
   else io_ret tt) ;$
  io_for (imap (fun i model => (Z.of_nat i + 1, model)%Z) (take 20 results))
    (fun '(i, model) =>
       text ←$ lift (format_model_info model i);
       print text ;$
       category ←$ lift (dict_item model "category");
       print ("   - API Endpoint: " +:+ get_api_endpoint category) ;$
       print "") ;$
  if (20 <? length results)%nat
  then
    print ("... " +:+ pretty (length results - 20)
           +:+ " more models not shown") ;$
    print "Use more specific keywords to filter"
  else io_ret tt.

(** [categories[cat].append(m)], creating the list when [cat] is new. *)
Definition group_add (categories : gmap string (list (gmap string pyval)))
    (m : gmap string pyval)
  : result (gmap string (list (gmap string pyval))) :=
  cat ←! category_of m;
  Ok (<[cat := default [] (categories !! cat) ++ [m]]> categories).

(** The [else] branch of [main]: category statistics. *)
Definition show_statistics (models : list (gmap string pyval)) : io unit :=
  print "Model category statistics:" ;$
  print "" ;$
  categories ←$ lift (fold_r group_add ∅ models);
  io_for (sorted_set (map fst (map_to_list categories))) (fun cat =>
    let model_list := default [] (categories !! cat) in
    print (cat +:+ " (" +:+ pretty (length model_list) +:+ " models)") ;$
    (* Show first 5 examples *)
    io_for (take 5 model_list) (fun m =>
      id ←$ lift (dict_item m "id");
      print ("  - " +:+ py_str id)) ;$
    (if (5 <? length model_list)%nat
     then print ("  ... " +:+ pretty (length model_list - 5) +:+ " more")
     else io_ret tt) ;$
    print "") ;$
  print ("API Endpoint: "
         +:+ get_api_endpoint (PyStr "💬 Chat Completion")) ;$
  print "" ;$
  print "Search for specific models using keywords, e.g.:" ;$
  print "  python search_api.py GPT" ;$
  print "  python search_api.py claude" ;$
  print "  python search_api.py flux".

(** [main], with [sys.argv] and the network as arguments. *)
Definition main_body (net : Network) (argv : list string) : io unit :=
  match argv !! 1 with
  | Some arg =>
      if decide (arg = "-h" ∨ arg = "--help")
      then io_for usage print ;$ sys_exit 0%Z
      else io_ret tt
  | None => io_ret tt
  end ;$
  let keyword := given (argv !! 1) in
  let category := argv !! 2 in
  (* Fetch the latest model list *)
  models ←$ load net;
  (* Search *)
  match keyword, given category with
  | None, None => show_statistics models
  | _, _ => show_search models keyword category
  end.

(** What a run of the script printed and its exit status: 0 at the end of
    [main], the argument of [sys.exit], 1 after an exception nobody caught. *)
Definition main (net : Network) (argv : list string) : list string * Z :=
  match main_body net argv [] with
  | (out, Done _) => (out, 0%Z)
  | (out, Exit code) => (out, code)
  | (out, Uncaught _) => (out, 1%Z)
  end.

End Entry.

(** ** Vocabulary of the specification *)

(** The priority table of the classifier as the specification lists it:
    eight groups in order, the last one without keywords. *)
Definition category_groups : list (string * list string) :=
  [ ("🎬 Video Generation",
      ["sora"; "runway"; "kling"; "luma"; "pika"; "video"]);
    ("🎵 Music Generation", ["suno"; "music"; "udio"]);
    ("🗿 3D Models", ["tripo"; "3d"; "mesh"]);
    ("🎨 Image Generation",
      ["dall-e"; "dalle"; "midjourney"; "flux"; "sd"; "stable"; "imagen";
       "ideogram"]);
    ("🎤 Audio Processing", ["tts"; "whisper"; "speech"; "audio"]);
    ("📊 Embeddings", ["embedding"; "embed"]);
    ("🔄 Rerank", ["rerank"]);
    ("💬 Chat Completion", []) ].

Definition category_labels : list string := map fst category_groups.

(** A field that is missing or holds a [str]. *)
Definition str_field (m : gmap string pyval) (key : string) : Prop :=
  ∃ s, default (PyStr "") (m !! key) = PyStr s.

(** A RawModel: [id] and [owned_by] are strings. *)
Definition raw_model (m : gmap string pyval) : Prop :=
  str_field m "id" ∧ str_field m "owned_by".

(** An EnrichedModel: [id], [owned_by] and [category] are strings. *)
Definition enriched_model (m : gmap string pyval) : Prop :=
  str_field m "id" ∧ str_field m "owned_by" ∧ str_field m "category".

(** A record with the three text fields in place, as the enricher leaves
    them for RawModels. *)
Definition text_fields (m : gmap string pyval) : Prop :=
  ∃ i o c,
    m !! "id" = Some (PyStr i)
    ∧ m !! "owned_by" = Some (PyStr o)
    ∧ m !! "category" = Some (PyStr c).



Section Vocabulary.
Context `{PyRuntime}.

(** The identifier contains, in lower case, a keyword of the group. *)
Definition group_matches (g : string * list string) (model_id : string)
  : bool :=
  any_in g.2 (str_lower model_id).

(** The same as a proposition: the lower-cased identifier is
    [pre +:+ kw +:+ post] for a keyword [kw] of the group. *)
Definition contains_keyword (g : string * list string) (model_id : string)
  : Prop :=
  ∃ kw pre post, kw ∈ g.2 ∧ str_lower model_id = pre +:+ kw +:+ post.

(** The first group of the table that matches, Chat Completion if none. *)
Definition first_match (model_id : string) : string :=
  match List.find (fun g => group_matches g model_id) category_groups with
  | Some g => g.1
  | None => "💬 Chat Completion"
  end.

(** The category of the record contains [category], case ignored. *)
Definition category_contains (category : string) (m : gmap string pyval)
  : bool :=
  match default (PyStr "") (m !! "category") with
  | PyStr c => str_in (str_lower category) (str_lower c)
  | _ => false
  end.

(** The pricing line as the specification words it: a price is present
    when it is not [None], and an absent output price reads N/A. *)
Definition present (v : pyval) : bool :=
  match v with
  | PyNone => false
  | _ => true
  end.

Definition is_true (v : pyval) : bool :=
  match v with
  | PyBool true => true
  | _ => false
  end.

Definition price_line_by_presence (model : gmap string pyval) : string :=
  let get key := default PyNone (model !! key) in
  if is_true (get "is_lock_price") && present (get "per_request")
  then "$" +:+ py_str (get "per_request") +:+ "/request"
  else if present (get "input_price")
  then "Input $" +:+ py_str (get "input_price") +:+ "/1M, Output $"
       +:+ (if present (get "output_price")
            then py_str (get "output_price") else "N/A")
       +:+ "/1M"
  else "Pricing TBD".

End Vocabulary.

(** ** A runtime for the worked examples *)

(** Lower case of the ASCII letters; other characters are kept. *)
Definition ascii_lower_char (c : Ascii.ascii) : Ascii.ascii :=
  let n := Ascii.N_of_ascii c in
  if (65 <=? n)%N && (n <=? 90)%N then Ascii.ascii_of_N (n + 32) else c.

Fixpoint ascii_lower (s : string) : string :=
  match s with
  | EmptyString => EmptyString
  | String c s' => String (ascii_lower_char c) (ascii_lower s')
  end.

(** The text of the floats that the examples print. *)
Definition float_texts : list (float * string) :=
  [ (1%float, "1.0"); (2.5%float, "2.5"); (3%float, "3.0") ].

Definition float_text (f : float) : string :=
  match List.find (fun p => PrimFloat.eqb p.1 f) float_texts with
  | Some p => p.2
  | None => "nan"
  end.

#[global] Instance example_runtime : PyRuntime := {
  str_lower := ascii_lower;
  float_str := float_text;
  str_lower_empty := eq_refl
}.

(** A free model: the catalog lists it, the price list prices it at 0. *)
Definition free_model : gmap string pyval :=
  <["id" := PyStr "free-chat"]> (<["owned_by" := PyStr "lemon"]> ∅).

Definition free_pricing : gmap string (gmap string pyval) :=
  <["free-chat" :=
      <["input_per_1m" := PyInt 0]> (<["output_per_1m" := PyInt 0]> ∅)]> ∅.

(** The record that the enricher builds for the free model. *)
Definition free_record : gmap string pyval :=
  match enrich_models [free_model] free_pricing with
  | Ok enriched => default ∅ (enriched !! 0)
  | Raise _ => ∅
  end.

(** An embedding model that has an input price and no output price, and
    the record that the enricher builds for it. *)
Definition input_only_model : gmap string pyval :=
  <["id" := PyStr "embed-lite"]> (<["owned_by" := PyStr "lemon"]> ∅).

Definition input_only_pricing : gmap string (gmap string pyval) :=
  <["embed-lite" := <["input_per_1m" := PyFloat 1%float]> ∅]> ∅.

Definition input_only_record : gmap string pyval :=
  match enrich_models [input_only_model] input_only_pricing with
  | Ok enriched => default ∅ (enriched !! 0)
  | Raise _ => ∅
  end.

(** The [id] fields of a search result. *)
Definition ids_of (results : result (list (gmap string pyval)))
  : result (list (option pyval)) :=
  results ←! results; Ok (map (fun m => m !! "id") results).

(** The three models of the end-to-end scenario and a price list for two
    of them. *)
Definition example_models : list (gmap string pyval) :=
  [ <["id" := PyStr "gpt-4o"]> (<["owned_by" := PyStr "openai"]> ∅);
    <["id" := PyStr "flux-pro"]> (<["owned_by" := PyStr "bfl"]> ∅);
    <["id" := PyStr "suno-v3"]> (<["owned_by" := PyStr "suno"]> ∅) ].

Definition example_pricing : gmap string (gmap string pyval) :=
  <["gpt-4o" :=
      <["input_per_1m" := PyFloat 1%float]>
      (<["output_per_1m" := PyFloat 3%float]> ∅)]>
  (<["flux-pro" :=
      <["per_request" := PyFloat 2.5%float]>
      (<["is_lock_price" := PyBool true]> ∅)]> ∅).

Definition example_enriched : list (gmap string pyval) :=
  match enrich_models example_models example_pricing with
  | Ok enriched => enriched
  | Raise _ => []
  end.

Definition example_gpt : gmap string pyval :=
  default ∅ (example_enriched !! 0).
Definition example_flux : gmap string pyval :=
  default ∅ (example_enriched !! 1).
Definition example_suno : gmap string pyval :=
  default ∅ (example_enriched !! 2).

(** A network where the model list cannot be reached. *)
Definition offline_net : Network := {|
  get_models := fun _ _ _ => Raise (RequestException "connection refused");
  get_pricing := fun _ _ _ => Raise (RequestException "connection refused")
|}.

(** A network that serves the model list and answers 503 for the prices. *)
Definition pricing_down_net : Network := {|
  get_models := fun _ _ _ =>
    Ok {| status_code := 200;
          error_text := "";
          json := Ok (<["data" := example_models]> ∅) |};
  get_pricing := fun _ _ _ =>
    Ok {| status_code := 503;
          error_text := "503 Server Error: Service Unavailable";
          json := Raise (ValueError "no body") |}
|}.

(** ** Vocabulary of the further properties *)

(** The position of the first element that satisfies [p], the length of
    the list when there is none. *)
Fixpoint first_index {A : Type} (p : A → bool) (l : list A) : nat :=
  match l with
  | [] => 0
  | x :: l' => if p x then 0 else S (first_index p l')
  end.

(** The record is filed under the category [c]. *)
Definition has_category (c : string) (m : gmap string pyval) : bool :=
  match m !! "category" with
  | Some (PyStr s) => String.eqb s c
  | _ => false
  end.

(** The fields of the record that the enricher builds. *)
Definition enriched_keys : list string :=
  [ "id"; "owned_by"; "category"; "input_price"; "output_price";
    "per_request"; "is_lock_price" ].

(** A run never ends with an exit status other than 0 and 1. *)
Definition exits_0_or_1 {A : Type} (m : io A) : Prop :=
  ∀ out,
    match (m out).2 with
    | Exit code => code = 0%Z ∨ code = 1%Z
    | _ => True
    end.


(** The price list request is answered, its status is no error, and its
    body parses to an object whose [data] member, if any, is [items]. *)
Definition pricing_served (net : Network) (api_key : option string)
    (items : list pricing_item) : Prop :=
  ∃ response data,
    get_pricing net PRICING_API_URL (auth_headers api_key) 30%Z = Ok response
    ∧ raise_for_status response = Ok tt
    ∧ json response = Ok data
    ∧ default [] (data !! "data") = items.

(** The same for the model list. *)
Definition models_served (net : Network) (api_key : option string)
    (models : list (gmap string pyval)) : Prop :=
  ∃ response data,
    get_models net MODELS_API_URL (auth_headers api_key) 30%Z = Ok response
    ∧ raise_for_status response = Ok tt
    ∧ json response = Ok data
    ∧ default [] (data !! "data") = models.

(** The request is answered with a status that is no error, and parsing
    the body raises [e]. *)
Definition body_raises {B : Type} (r : result (Response B)) (e : exn)
  : Prop :=
  ∃ response,
    r = Ok response
    ∧ raise_for_status response = Ok tt
    ∧ json response = Raise e.

Section FurtherVocabulary.
Context `{PyRuntime}.

(** The position in the table of the first group that matches. *)
Definition category_rank (model_id : string) : nat :=
  first_index (fun g => group_matches g model_id) category_groups.

(** The keyword occurs, case ignored, in the id, the provider or the
    category of the record. *)
Definition keyword_contains (keyword : string) (m : gmap string pyval)
  : bool :=
  let field key :=
    match default (PyStr "") (m !! key) with
    | PyStr s => str_in (str_lower keyword) (str_lower s)
    | _ => false
    end in
  field "id" || field "owned_by" || field "category".

(** What the two filters of [search_models] keep; a filter that is not
    given keeps everything. *)
Definition keeps_category (category : option string)
    (m : gmap string pyval) : bool :=
  match given category with
  | Some c => category_contains c m
  | None => true
  end.

Definition keeps_keyword (keyword : option string)
    (m : gmap string pyval) : bool :=
  match given keyword with
  | Some k => keyword_contains k m
  | None => true
  end.

End FurtherVocabulary.

(** A network that answers like [pricing_down_net] at the two requests of
    [main] and fails everywhere else. *)
Definition strict_net : Network := {|
  get_models := fun url headers timeout =>
    if decide (url = MODELS_API_URL ∧ headers = ∅ ∧ timeout = 30%Z)
    then get_models pricing_down_net url headers timeout
    else Raise (RequestException "unexpected request");
  get_pricing := fun url headers timeout =>
    if decide (url = PRICING_API_URL ∧ headers = ∅ ∧ timeout = 30%Z)
    then get_pricing pricing_down_net url headers timeout
    else Raise (RequestException "unexpected request")
|}.

(** A price list with two items for one model and one item without a
    model. *)
Definition price_a : gmap string pyval := <["input_per_1m" := PyInt 1]> ∅.
Definition price_b : gmap string pyval := <["input_per_1m" := PyInt 2]> ∅.

Definition doubled_items : list pricing_item :=
  [ {| item_model := Some "gpt-4o"; item_pricing := Some price_a |};
    {| item_model := Some "flux-pro"; item_pricing := None |};
    {| item_model := Some "gpt-4o"; item_pricing := Some price_b |} ].

Definition broken_items : list pricing_item :=
  [ {| item_model := Some "gpt-4o"; item_pricing := Some price_a |};
    {| item_model := None; item_pricing := Some price_b |} ].

(** A network that serves the three models and the given price items. *)
Definition serving_net (items : list pricing_item) : Network := {|
  get_models := get_models pricing_down_net;
  get_pricing := fun _ _ _ =>
    Ok {| status_code := 200;
          error_text := "";
          json := Ok (<["data" := items]> ∅) |}
|}.

(** A network whose answers have bodies that do not parse. *)
Definition garbled_net : Network := {|
  get_models := fun _ _ _ =>
    Ok {| status_code := 200;
          error_text := "";
          json := Raise (ValueError "Expecting value") |};
  get_pricing := fun _ _ _ =>
    Ok {| status_code := 200;
          error_text := "";
          json := Raise (RequestException "Expecting value") |}
|}.

(** A network whose model list has a body without [data]. *)
Definition empty_net : Network := {|
  get_models := fun _ _ _ =>
    Ok {| status_code := 200; error_text := ""; json := Ok ∅ |};
  get_pricing := fun _ _ _ =>
    Ok {| status_code := 200; error_text := ""; json := Ok ∅ |}
|}.

(** The price list of the example with an entry for one more model. *)
Definition longer_pricing : gmap string (gmap string pyval) :=
  <["sora-2" := price_a]> example_pricing.

(** A catalog entry whose [id] is a number. *)
Definition numbered_model : gmap string pyval :=
  <["id" := PyInt 7]> (<["owned_by" := PyStr "lemon"]> ∅).

(** A catalog entry whose provider is [null]. *)
Definition orphan_record : gmap string pyval :=
  <["id" := PyStr "gpt-4o"]>
  (<["owned_by" := PyNone]>
  (<["category" := PyStr "💬 Chat Completion"]> ∅)).



(** * Properties *)

(** ** Substring containment *)

Lemma prefix_app (x s : string) :
  String.prefix x s = true ↔ ∃ post, s = x +:+ post.
Proof.
  revert s. induction x as [|a x IH]; intros s; simpl.
  - destruct s; split; eauto.
  - destruct s as [|b s]; simpl.
    + split; [discriminate | intros [post Hp]; discriminate].
    + destruct (Ascii.ascii_dec a b) as [->|Hne].
      * rewrite IH. split; intros [post Hp]; exists post.
        -- by rewrite Hp.
        -- by injection Hp.
      * split; [discriminate | intros [post Hp]]. by injection Hp.
Qed.

(** [str_in x s] holds exactly when [x] occurs in [s] as a contiguous run. *)
Lemma str_in_app (x s : string) :
  str_in x s = true ↔ ∃ pre post, s = pre +:+ x +:+ post.
Proof.
  induction s as [|c s IH].
  - change (str_in x "") with (String.prefix x "" || false).
    rewrite orb_false_r, prefix_app. split.
    + intros [post Hp]. by exists "", post.
    + intros [pre [post Hp]]. destruct pre; [by exists post | discriminate].
  - change (str_in x (String c s))
      with (String.prefix x (String c s) || str_in x s).
    rewrite orb_true_iff, IH, prefix_app. split.
    + intros [[post Hp]|[pre [post Hp]]].
      * by exists "", post.
      * exists (String c pre), post. simpl. by rewrite Hp.
    + intros [pre [post Hp]]. destruct pre as [|c' pre]; simpl in Hp.
      * left. by exists post.
      * right. exists pre, post. by injection Hp.
Qed.

Lemma append_assoc (a b c : string) : (a +:+ b) +:+ c = a +:+ b +:+ c.
Proof.
  induction a as [|x a IH]; [done|].
  change (String x ((a +:+ b) +:+ c) = String x (a +:+ b +:+ c)).
  by rewrite IH.
Qed.

Lemma str_in_empty (s : string) : str_in "" s = true.
Proof. apply str_in_app. by exists "", s. Qed.

Lemma any_in_elem (xs : list string) (s : string) :
  any_in xs s = true ↔ ∃ x, x ∈ xs ∧ str_in x s = true.
Proof.
  unfold any_in. rewrite existsb_exists.
  split; intros [x [Hx Hs]]; exists x; by rewrite ?list_elem_of_In in *.
Qed.

Section Classifier.
Context `{PyRuntime}.

(** The chain of tests of [get_model_category] walks the table in order. *)
Lemma get_model_category_first_match (model_id : string) (owned_by : pyval) :
  get_model_category (PyStr model_id) owned_by = Ok (first_match model_id).
Proof.
  unfold get_model_category, first_match, group_matches. simpl.
  rewrite !orb_false_r.
  repeat (match goal with
          | |- context [if ?b then Ok _ else _] => destruct b; [done|]
          end).
  done.
Qed.

Lemma find_first {A : Type} (p : A → bool) (l : list A) (i : nat) (x : A) :
  l !! i = Some x → p x = true →
  (∀ k y, k < i → l !! k = Some y → p y = false) →
  List.find p l = Some x.
Proof.
  revert i. induction l as [|a l IH]; intros i Hi Hx Hbefore; [done|].
  destruct i as [|i]; simpl in *.
  - injection Hi as ->. by rewrite Hx.
  - rewrite (Hbefore 0 a); [|lia|done].
    apply (IH i); [done..|].
    intros k y Hk Hy. apply (Hbefore (S k)); [lia|done].
Qed.

Lemma find_none {A : Type} (p : A → bool) (l : list A) :
  (∀ y, y ∈ l → p y = false) → List.find p l = None.
Proof.
  induction l as [|a l IH]; intros Hall; [done|]. simpl.
  rewrite (Hall a); [|by left]. apply IH. intros y Hy. apply Hall. by right.
Qed.

Lemma category_labels_NoDup : NoDup category_labels.
Proof. apply (bool_decide_unpack _). by vm_compute. Qed.

Lemma first_match_label (model_id : string) :
  first_match model_id ∈ category_labels.
Proof.
  unfold first_match.
  destruct (List.find _ category_groups) as [g|] eqn:Hfind.
  - apply find_some in Hfind as [Hin _].
    apply list_elem_of_In in Hin. unfold category_labels.
    by apply list_elem_of_fmap_2.
  - apply (bool_decide_unpack _). by vm_compute.
Qed.

Lemma contains_keyword_matches (g : string * list string) (model_id : string) :
  contains_keyword g model_id ↔ group_matches g model_id = true.
Proof.
  unfold contains_keyword, group_matches. rewrite any_in_elem. split.
  - intros (kw & pre & post & Hkw & Heq). exists kw. split; [done|].
    apply str_in_app. eauto.
  - intros (kw & Hkw & Hin). apply str_in_app in Hin as (pre & post & Heq).
    by exists kw, pre, post.
Qed.

Lemma not_contains_keyword (g : string * list string) (model_id : string) :
  ¬ contains_keyword g model_id ↔ group_matches g model_id = false.
Proof. rewrite contains_keyword_matches. apply not_true_iff_false. Qed.

Lemma first_match_at (model_id : string) (i : nat) (g : string * list string) :
  category_groups !! i = Some g →
  contains_keyword g model_id →
  (∀ k gk, k < i → category_groups !! k = Some gk →
           ¬ contains_keyword gk model_id) →
  first_match model_id = g.1.
Proof.
  intros Hi Hg Hbefore. unfold first_match.
  rewrite (find_first _ _ i g); [done..| |].
  - by apply contains_keyword_matches.
  - intros k y Hk Hy. apply not_contains_keyword. by apply (Hbefore k).
Qed.

(** C10: the category depends on the model identifier only; two calls of
    [get_model_category] that differ in [owned_by] alone give the same
    result, and so two models that differ in [owned_by] alone are enriched
    with the same category, or both stop the enricher. *)
Theorem get_model_category_ignores_owned_by
    (model_id owned_by1 owned_by2 : pyval) :
  get_model_category model_id owned_by1
  = get_model_category model_id owned_by2
  ∧ ∀ pricing model,
      (m ←! enrich_model pricing (<["owned_by" := owned_by1]> model);
       Ok (m !! "category"))
      = (m ←! enrich_model pricing (<["owned_by" := owned_by2]> model);
         Ok (m !! "category")).
Proof.
  split; [reflexivity|].
  intros pricing model. unfold enrich_model, dict_get.
  rewrite !(lookup_insert_ne _ "owned_by" "id") by done.
  destruct (get_model_category (default (PyStr "") (model !! "id")) _)
    as [category|e]; [|done].
  simpl.
  rewrite !(lookup_insert_ne _ "id" "category") by done.
  rewrite !(lookup_insert_ne _ "owned_by" "category") by done.
  by rewrite !lookup_insert_eq.
Qed.

(** C3: an identifier that contains, in lower case and as a substring, a
    keyword of exactly one group of the table is given that group's
    category, and an identifier that contains no keyword of any group is
    given Chat Completion. *)
Theorem classify_single_group (model_id : string) (owned_by : pyval) :
  (∀ i g,
      category_groups !! i = Some g →
      contains_keyword g model_id →
      (∀ j g', j ≠ i → category_groups !! j = Some g' →
               ¬ contains_keyword g' model_id) →
      get_model_category (PyStr model_id) owned_by = Ok g.1)
  ∧ ((∀ g, g ∈ category_groups → ¬ contains_keyword g model_id) →
     get_model_category (PyStr model_id) owned_by = Ok "💬 Chat Completion").
Proof.
  rewrite get_model_category_first_match. split.
  - intros i g Hi Hg Hothers. f_equal.
    apply (first_match_at _ i); [done..|].
    intros k gk Hk. apply Hothers. lia.
  - intros Hnone. unfold first_match. rewrite find_none; [done|].
    intros g Hg. by apply not_contains_keyword, Hnone.
Qed.

(** C2: when the identifier contains keywords of two groups (or more), the
    category is that of the group that comes first in the table, and not
    that of the later one; an identifier with both "video" and "rerank" is
    Video Generation. *)
Theorem classify_earlier_group_wins (model_id : string) (owned_by : pyval) :
  (∀ i j gi gj,
      i < j →
      category_groups !! i = Some gi →
      category_groups !! j = Some gj →
      contains_keyword gi model_id →
      contains_keyword gj model_id →
      (∀ k gk, k < i → category_groups !! k = Some gk →
               ¬ contains_keyword gk model_id) →
      get_model_category (PyStr model_id) owned_by = Ok gi.1 ∧ gi.1 ≠ gj.1)
  ∧ (str_in "video" (str_lower model_id) = true →
     str_in "rerank" (str_lower model_id) = true →
     get_model_category (PyStr model_id) owned_by = Ok "🎬 Video Generation").
Proof.
  rewrite get_model_category_first_match. split.
  - intros i j gi gj Hij Hi Hj Hgi Hgj Hbefore. split.
    + f_equal. by apply (first_match_at _ i).
    + intros Heq.
      assert (i = j) as ->; [|lia].
      apply (NoDup_lookup category_labels i j gi.1).
      * apply category_labels_NoDup.
      * unfold category_labels. by rewrite list_lookup_fmap, Hi.
      * unfold category_labels. by rewrite list_lookup_fmap, Hj, Heq.
  - intros Hvideo _. f_equal.
    apply (first_match_at _ 0 ("🎬 Video Generation",
             ["sora"; "runway"; "kling"; "luma"; "pika"; "video"]));
      [done| |intros; lia].
    apply contains_keyword_matches, any_in_elem.
    exists "video". split; [|done]. apply list_elem_of_In. simpl. tauto.
Qed.

End Classifier.

(** ** Enricher *)

Lemma for_each_ok {A B : Type} (f : A → result B) (xs : list A) :
  Forall (fun x => ∃ y, f x = Ok y) xs → ∃ ys, for_each f xs = Ok ys.
Proof.
  induction 1 as [|x xs [y Hy] _ [ys Hys]]; simpl; [by eexists|].
  rewrite Hy. simpl. rewrite Hys. simpl. by eexists.
Qed.

Lemma for_each_lookup {A B : Type} (f : A → result B) (xs : list A)
    (ys : list B) :
  for_each f xs = Ok ys →
  length ys = length xs
  ∧ ∀ i x, xs !! i = Some x → ∃ y, ys !! i = Some y ∧ f x = Ok y.
Proof.
  revert ys. induction xs as [|x xs IH]; intros ys; simpl.
  - intros [= <-]. split; [done|]. intros i x Hx. by destruct i.
  - destruct (f x) as [y|e] eqn:Hy; [|discriminate]. simpl.
    destruct (for_each f xs) as [ys'|e] eqn:Hys; [|discriminate]. simpl.
    intros [= <-]. destruct (IH ys' eq_refl) as [Hlen Hat]. split.
    + simpl. by rewrite Hlen.
    + intros [|i] x' Hx'; simpl in *.
      * injection Hx' as <-. by exists y.
      * by apply Hat.
Qed.

Lemma for_each_elem {A B : Type} (f : A → result B) (xs : list A)
    (ys : list B) (y : B) :
  for_each f xs = Ok ys → y ∈ ys → ∃ x, x ∈ xs ∧ f x = Ok y.
Proof.
  revert ys. induction xs as [|x xs IH]; intros ys; simpl.
  - intros [= <-] Hy. by apply elem_of_nil in Hy.
  - destruct (f x) as [y'|e] eqn:Hy'; [|discriminate]. simpl.
    destruct (for_each f xs) as [ys'|e] eqn:Hys; [|discriminate]. simpl.
    intros [= <-] Hy. apply elem_of_cons in Hy as [->|Hy].
    + exists x. split; [by left|done].
    + destruct (IH ys' eq_refl Hy) as [x' [Hx' Hfx']].
      exists x'. split; [by right|done].
Qed.

Section Enricher.
Context `{PyRuntime}.

(** The record that [enrich_model] builds, field by field. *)
Lemma enrich_model_fields (pricing : gmap string (gmap string pyval))
    (model m : gmap string pyval) :
  enrich_model pricing model = Ok m →
  let model_id := dict_get model "id" (PyStr "") in
  let price_info := pricing_get pricing model_id in
  m !! "id" = Some model_id
  ∧ m !! "owned_by" = Some (dict_get model "owned_by" (PyStr ""))
  ∧ (∃ s, model_id = PyStr s ∧ m !! "category" = Some (PyStr (first_match s)))
  ∧ m !! "input_price" = Some (dict_get price_info "input_per_1m" PyNone)
  ∧ m !! "output_price" = Some (dict_get price_info "output_per_1m" PyNone)
  ∧ m !! "per_request" = Some (dict_get price_info "per_request" PyNone)
  ∧ m !! "is_lock_price"
    = Some (dict_get price_info "is_lock_price" (PyBool false)).
Proof.
  unfold enrich_model.
  destruct (dict_get model "id" (PyStr "")) as [| | | |s] eqn:Hid;
    try discriminate.
  rewrite get_model_category_first_match. simpl. intros [= <-].
  repeat split; try (by simplify_map_eq).
  exists s. split; [done|]. by simplify_map_eq.
Qed.

Lemma enrich_model_ok (pricing : gmap string (gmap string pyval))
    (model : gmap string pyval) :
  str_field model "id" → ∃ m, enrich_model pricing model = Ok m.
Proof.
  intros [s Hs]. unfold enrich_model, dict_get. rewrite Hs.
  rewrite get_model_category_first_match. simpl. by eexists.
Qed.

Lemma enrich_models_ok (models : list (gmap string pyval))
    (pricing : gmap string (gmap string pyval)) :
  Forall (fun model => str_field model "id") models →
  ∃ enriched, enrich_models models pricing = Ok enriched.
Proof.
  intros Hids. apply for_each_ok.
  eapply Forall_impl; [exact Hids|]. intros model. apply enrich_model_ok.
Qed.

(** C6: on RawModels (the [id], when there is one, is a string)
    [enrich_models] raises nothing and returns as many records as it was
    given; the record at position [i] is built from the model at position
    [i]: it carries its [id] and [owned_by], and its prices are the fields
    of the model's entry in [pricing], or [None], [None], [None] and
    [False] when [pricing] has no entry for the id. *)
Theorem enrich_models_preserves (models : list (gmap string pyval))
    (pricing : gmap string (gmap string pyval)) :
  Forall (fun model => str_field model "id") models →
  ∃ enriched,
    enrich_models models pricing = Ok enriched
    ∧ length enriched = length models
    ∧ ∀ i model, models !! i = Some model →
        ∃ m s,
          enriched !! i = Some m
          ∧ enrich_model pricing model = Ok m
          ∧ dict_get model "id" (PyStr "") = PyStr s
          ∧ m !! "id" = Some (PyStr s)
          ∧ m !! "owned_by" = Some (dict_get model "owned_by" (PyStr ""))
          ∧ (∀ price_info, pricing !! s = Some price_info →
               m !! "input_price"
               = Some (dict_get price_info "input_per_1m" PyNone)
               ∧ m !! "output_price"
                 = Some (dict_get price_info "output_per_1m" PyNone)
               ∧ m !! "per_request"
                 = Some (dict_get price_info "per_request" PyNone)
               ∧ m !! "is_lock_price"
                 = Some (dict_get price_info "is_lock_price" (PyBool false)))
          ∧ (pricing !! s = None →
               m !! "input_price" = Some PyNone
               ∧ m !! "output_price" = Some PyNone
               ∧ m !! "per_request" = Some PyNone
               ∧ m !! "is_lock_price" = Some (PyBool false)).
Proof.
  intros Hids. destruct (enrich_models_ok models pricing Hids) as [enriched He].
  exists enriched. split; [done|].
  destruct (for_each_lookup _ _ _ He) as [Hlen Hat]. split; [done|].
  intros i model Hi. destruct (Hat i model Hi) as (m & Hm & Hbuilt).
  destruct (enrich_model_fields _ _ _ Hbuilt)
    as (Hid & Hown & (s & Hs & _) & Hin & Hout & Hreq & Hlock).
  exists m, s. rewrite Hs in Hid, Hin, Hout, Hreq, Hlock.
  unfold pricing_get in Hin, Hout, Hreq, Hlock.
  repeat split; try done;
    match goal with
    | Hp : pricing !! s = _ |- _ => by rewrite Hp in Hin, Hout, Hreq, Hlock
    end.
Qed.

(** C8: every record that [enrich_models] produces has a [category], and it
    is one of the eight labels; on RawModels records are produced, and the
    category is Chat Completion when the id contains no keyword. *)
Theorem enrich_models_category (models : list (gmap string pyval))
    (pricing : gmap string (gmap string pyval)) :
  (∀ enriched m,
      enrich_models models pricing = Ok enriched → m ∈ enriched →
      ∃ c, m !! "category" = Some (PyStr c) ∧ c ∈ category_labels)
  ∧ (Forall (fun model => str_field model "id") models →
     ∃ enriched,
       enrich_models models pricing = Ok enriched
       ∧ ∀ i model s,
           models !! i = Some model →
           dict_get model "id" (PyStr "") = PyStr s →
           (∀ g, g ∈ category_groups → ¬ contains_keyword g s) →
           ∃ m, enriched !! i = Some m
                ∧ m !! "category" = Some (PyStr "💬 Chat Completion")).
Proof.
  split.
  - intros enriched m He Hm.
    destruct (for_each_elem _ _ _ _ He Hm) as (model & _ & Hbuilt).
    destruct (enrich_model_fields _ _ _ Hbuilt)
      as (_ & _ & (s & _ & Hcat) & _).
    exists (first_match s). split; [done|]. apply first_match_label.
  - intros Hids.
    destruct (enrich_models_ok models pricing Hids) as [enriched He].
    exists enriched. split; [done|].
    intros i model s Hi Hs Hnone.
    destruct (for_each_lookup _ _ _ He) as [_ Hat].
    destruct (Hat i model Hi) as (m & Hm & Hbuilt).
    destruct (enrich_model_fields _ _ _ Hbuilt)
      as (_ & _ & (s' & Hs' & Hcat) & _).
    exists m. split; [done|]. rewrite Hcat.
    assert (s' = s) as -> by congruence.
    unfold first_match. rewrite find_none; [done|].
    intros g Hg. by apply not_contains_keyword, Hnone.
Qed.

End Enricher.

(** ** Search engine *)

Lemma filter_r_total {A : Type} (p : A → result bool) (q : A → bool)
    (ms : list A) :
  Forall (fun m => p m = Ok (q m)) ms →
  filter_r p ms = Ok (List.filter q ms).
Proof.
  induction 1 as [|m ms Hm _ IH]; simpl; [done|].
  rewrite Hm, IH. simpl. by destruct (q m).
Qed.

Lemma length_filter_le {A : Type} (q : A → bool) (ms : list A) :
  length (List.filter q ms) ≤ length ms.
Proof.
  induction ms as [|m ms IH]; simpl; [done|]. destruct (q m); simpl; lia.
Qed.

Section Search.
Context `{PyRuntime}.

Lemma category_matches_contains (category : string) (m : gmap string pyval) :
  str_field m "category" →
  category_matches (str_lower category) m = Ok (category_contains category m).
Proof.
  intros [c Hc]. unfold category_matches, category_contains, dict_get.
  by rewrite Hc.
Qed.

Lemma keyword_matches_ok (keyword_lower : string) (m : gmap string pyval) :
  enriched_model m → ∃ keep, keyword_matches keyword_lower m = Ok keep.
Proof.
  intros ([i Hi] & [o Ho] & [c Hc]). unfold keyword_matches, dict_get.
  rewrite Hi, Ho, Hc. simpl.
  destruct (str_in keyword_lower (str_lower i)); [by eexists|].
  destruct (str_in keyword_lower (str_lower o)); by eexists.
Qed.

Lemma filter_r_ok {A : Type} (p : A → result bool) (ms : list A) :
  Forall (fun m => ∃ keep, p m = Ok keep) ms →
  ∃ kept, filter_r p ms = Ok kept ∧ length kept ≤ length ms.
Proof.
  induction 1 as [|m ms [keep Hm] _ (kept & IH & Hlen)]; simpl.
  - by exists [].
  - rewrite Hm, IH. simpl. eexists. split; [done|].
    destruct keep; simpl; lia.
Qed.

Lemma Forall_filter {A : Type} (P : A → Prop) (q : A → bool) (ms : list A) :
  Forall P ms → Forall P (List.filter q ms).
Proof.
  induction 1 as [|m ms Hm _ IH]; simpl; [done|].
  destruct (q m); [by constructor|done].
Qed.

Lemma filter_contains_empty (models : list (gmap string pyval)) :
  Forall enriched_model models →
  List.filter (category_contains "") models = models.
Proof.
  induction 1 as [|m ms (_ & _ & [c Hc]) _ IH]; simpl; [done|].
  unfold category_contains at 1. rewrite Hc, str_lower_empty, str_in_empty.
  by rewrite IH.
Qed.

(** C4: on EnrichedModels, [search_models] with a category and no keyword
    returns, in the order of the input, exactly the records whose category
    contains the given string, case ignored; with a keyword added it
    returns a list that is not longer. *)
Theorem search_models_category (models : list (gmap string pyval))
    (keyword : option string) (category : string) :
  Forall enriched_model models →
  search_models models None (Some category)
  = Ok (List.filter (category_contains category) models)
  ∧ ∃ both,
      search_models models keyword (Some category) = Ok both
      ∧ length both
        ≤ length (List.filter (category_contains category) models).
Proof.
  intros Hwf.
  assert (match given (Some category) with
          | Some category =>
              filter_r (category_matches (str_lower category)) models
          | None => Ok models
          end = Ok (List.filter (category_contains category) models)) as Hcat.
  { simpl. destruct (String.eqb_spec category "") as [->|_].
    - by rewrite filter_contains_empty.
    - apply filter_r_total. eapply Forall_impl; [exact Hwf|].
      intros m (_ & _ & Hc). by apply category_matches_contains. }
  unfold search_models. rewrite Hcat. simpl. split; [done|].
  destruct (given keyword) as [kw|]; simpl.
  - destruct (filter_r_ok (keyword_matches (str_lower kw))
                (List.filter (category_contains category) models))
      as (kept & Hkept & Hlen).
    { eapply Forall_impl; [by apply Forall_filter|].
      intros m Hm. by apply keyword_matches_ok. }
    rewrite Hkept. simpl. by exists kept.
  - by eexists.
Qed.

(** C5: without keyword and category [search_models] returns its input
    unchanged; an empty keyword and an empty category count as none, and the
    empty string is a substring of every string. *)
Theorem search_models_no_filter (models : list (gmap string pyval)) :
  search_models models None None = Ok models
  ∧ search_models models (Some "") None = Ok models
  ∧ search_models models None (Some "") = Ok models
  ∧ search_models models (Some "") (Some "") = Ok models
  ∧ (∀ category,
       search_models models (Some "") category
       = search_models models None category)
  ∧ (∀ keyword,
       search_models models keyword (Some "")
       = search_models models keyword None)
  ∧ (∀ s, str_in "" s = true).
Proof.
  repeat split; try done. apply str_in_empty.
Qed.

End Search.

(** ** Presenter *)

Lemma truthy_item (model : gmap string pyval) (key : string) :
  truthy (dict_get model key PyNone) = true →
  dict_item model key = Ok (dict_get model key PyNone).
Proof.
  unfold dict_get, dict_item. by destruct (model !! key).
Qed.

Lemma endpoints_other (c : string) :
  c ∉ category_labels → endpoints !! c = None.
Proof.
  intros Hc. unfold endpoints.
  rewrite !lookup_insert_ne; [apply lookup_empty|..];
    intros <-; apply Hc; apply (bool_decide_unpack _); by vm_compute.
Qed.

(** C9: [get_api_endpoint] gives each of the eight labels its path,
    [/v1/rerank] for Rerank, and [/v1/chat/completions] for every other
    category. *)
Theorem get_api_endpoint_table :
  get_api_endpoint (PyStr "💬 Chat Completion") = "/v1/chat/completions"
  ∧ get_api_endpoint (PyStr "🎨 Image Generation") = "/v1/images/generations"
  ∧ get_api_endpoint (PyStr "🎬 Video Generation") = "/v1/video/generations"
  ∧ get_api_endpoint (PyStr "🎵 Music Generation") = "/v1/music/generations"
  ∧ get_api_endpoint (PyStr "🗿 3D Models") = "/v1/3d/generations"
  ∧ get_api_endpoint (PyStr "🎤 Audio Processing")
    = "/v1/audio/speech or /v1/audio/transcriptions"
  ∧ get_api_endpoint (PyStr "📊 Embeddings") = "/v1/embeddings"
  ∧ get_api_endpoint (PyStr "🔄 Rerank") = "/v1/rerank"
  ∧ (∀ category : string,
       category ∉ category_labels →
       get_api_endpoint (PyStr category) = "/v1/chat/completions").
Proof.
  repeat (split; [by vm_compute|]).
  intros category Hc. unfold get_api_endpoint. by rewrite endpoints_other.
Qed.

Section Presenter.
Context `{PyRuntime}.

(** The pricing line when the output price is missing: the record of
    [enrich_models] always has the key, so the text is that of [None]. *)
Lemma price_str_output_none (model : gmap string pyval) :
  truthy (dict_get model "is_lock_price" PyNone)
  && truthy (dict_get model "per_request" PyNone) = false →
  truthy (dict_get model "input_price" PyNone) = true →
  model !! "output_price" = Some PyNone →
  price_str model
  = Ok ("Input $" +:+ py_str (dict_get model "input_price" PyNone)
        +:+ "/1M, Output $None/1M").
Proof.
  intros Hlock Hin Hout. unfold price_str. rewrite Hlock, Hin.
  rewrite (truthy_item _ _ Hin). simpl. unfold dict_get at 2. by rewrite Hout.
Qed.

(** C1, amended: the pricing line is chosen by truth value. When
    [is_lock_price] and [per_request] are both true values the line is the
    price per request; otherwise, when [input_price] is a true value, it is
    the input and output prices (stated here for an output price that is
    there); otherwise it is "Pricing TBD". A price of 0 is not a true
    value. The line is the fourth line of [format_model_info]. *)
Theorem price_str_by_truth_value (model : gmap string pyval) :
  let is_lock_price := dict_get model "is_lock_price" PyNone in
  let per_request := dict_get model "per_request" PyNone in
  let input_price := dict_get model "input_price" PyNone in
  let output_price := dict_get model "output_price" PyNone in
  (truthy is_lock_price = true → truthy per_request = true →
   price_str model = Ok ("$" +:+ py_str per_request +:+ "/request"))
  ∧ (truthy is_lock_price && truthy per_request = false →
     truthy input_price = true → present output_price = true →
     price_str model
     = Ok ("Input $" +:+ py_str input_price +:+ "/1M, Output $"
           +:+ py_str output_price +:+ "/1M"))
  ∧ (truthy is_lock_price && truthy per_request = false →
     truthy input_price = false →
     price_str model = Ok "Pricing TBD")
  ∧ (∀ index text,
       format_model_info model index = Ok text →
       ∃ line before after,
         price_str model = Ok line
         ∧ text = before +:+ "   - Pricing: " +:+ line +:+ nl +:+ after).
Proof.
  intros is_lock_price per_request input_price output_price.
  subst is_lock_price per_request input_price output_price.
  repeat split.
  - intros Hlock Hreq. unfold price_str. rewrite Hlock, Hreq. simpl.
    by rewrite (truthy_item _ _ Hreq).
  - intros Hno Hin Hout. unfold price_str. rewrite Hno, Hin.
    rewrite (truthy_item _ _ Hin). simpl. do 3 f_equal.
    unfold dict_get in *. by destruct (model !! "output_price") as [[]|].
  - intros Hno Hin. unfold price_str. by rewrite Hno, Hin.
  - intros index text. unfold format_model_info.
    destruct (price_str model) as [line|e]; [|discriminate]. simpl.
    destruct (dict_item model "id") as [id|e]; [|discriminate]. simpl.
    destruct (dict_item model "category") as [cat|e]; [|discriminate]. simpl.
    destruct (dict_item model "owned_by") as [own|e]; [|discriminate]. simpl.
    intros [= <-].
    exists line,
      ((if (index >? 0)%Z then pretty index +:+ ". " else "")
       +:+ "**" +:+ py_str id +:+ "**" +:+ nl
       +:+ "   - Category: " +:+ py_str cat +:+ nl
       +:+ "   - Provider: " +:+ py_str own +:+ nl),
      "   - Docs: https://docs.lemondata.cc/api-reference".
    split; [done|]. by rewrite !append_assoc.
Qed.

End Presenter.

(** ** Catalog client and command line entry *)








Lemma filter_r_keeps {A : Type} (P : A → Prop) (p : A → result bool)
    (ms : list A) :
  Forall (fun m => ∃ keep, p m = Ok keep) ms →
  Forall P ms →
  ∃ kept, filter_r p ms = Ok kept ∧ Forall P kept.
Proof.
  induction 1 as [|m ms [keep Hm] _ IH]; intros HP; simpl.
  - by exists [].
  - apply Forall_cons in HP as [HPm HPms].
    destruct (IH HPms) as (kept & Hkept & HPkept).
    rewrite Hm, Hkept. simpl. eexists. split; [done|].
    destruct keep; [by constructor|done].
Qed.





Lemma text_fields_enriched (m : gmap string pyval) :
  text_fields m → enriched_model m.
Proof.
  intros (i & o & c & Hi & Ho & Hc). unfold enriched_model, str_field.
  rewrite Hi, Ho, Hc. simpl. repeat split; by eexists.
Qed.

Section Run.
Context `{PyRuntime}.

Lemma price_str_ok (model : gmap string pyval) :
  ∃ line, price_str model = Ok line.
Proof.
  unfold price_str.
  destruct (truthy (dict_get model "is_lock_price" PyNone)); simpl.
  - destruct (truthy (dict_get model "per_request" PyNone)) eqn:Hreq.
    + rewrite (truthy_item _ _ Hreq). simpl. by eexists.
    + destruct (truthy (dict_get model "input_price" PyNone)) eqn:Hin;
        [|by eexists].
      rewrite (truthy_item _ _ Hin). simpl. by eexists.
  - destruct (truthy (dict_get model "input_price" PyNone)) eqn:Hin;
      [|by eexists].
    rewrite (truthy_item _ _ Hin). simpl. by eexists.
Qed.




Lemma search_models_text_fields (models : list (gmap string pyval))
    (keyword category : option string) :
  Forall text_fields models →
  ∃ results,
    search_models models keyword category = Ok results
    ∧ Forall text_fields results.
Proof.
  intros Hmodels. unfold search_models.
  assert (∃ narrowed,
            match given category with
            | Some category =>
                filter_r (category_matches (str_lower category)) models
            | None => Ok models
            end = Ok narrowed ∧ Forall text_fields narrowed)
    as (narrowed & -> & Hnarrowed).
  { destruct (given category) as [c|]; [|by exists models].
    apply filter_r_keeps; [|done].
    eapply Forall_impl; [exact Hmodels|]. intros m Hm.
    apply text_fields_enriched in Hm as (_ & _ & Hc).
    rewrite (category_matches_contains _ _ Hc). by eexists. }
  simpl. destruct (given keyword) as [kw|]; [|by exists narrowed].
  destruct (filter_r_keeps text_fields (keyword_matches (str_lower kw))
              narrowed) as (kept & -> & Hkept); [|done|by exists kept].
  eapply Forall_impl; [exact Hnarrowed|]. intros m Hm.
  by apply keyword_matches_ok, text_fields_enriched.
Qed.



Lemma load_ok (net : Network) (models enriched : list (gmap string pyval))
    (pricing : gmap string (gmap string pyval)) (out : list string) :
  fetch_models net None = Ok models →
  fetch_pricing net None = Ok pricing →
  enrich_models models pricing = Ok enriched →
  load net out
  = (out ++ [ "Fetching latest model list from LemonData...";
              "✓ Success, found " +:+ pretty (length enriched) +:+ " models";
              "" ],
     Done enriched).
Proof.
  intros Hmodels Hpricing Henrich.
  unfold load, io_bind, try_except, print, lift, io_ret.
  rewrite Hmodels, Hpricing, Henrich. simpl. by rewrite <- !app_assoc.
Qed.






End Run.

(** * Worked examples *)

Lemma example_models_raw : Forall raw_model example_models.
Proof.
  unfold example_models.
  repeat (apply List.Forall_cons;
          [split; (eexists; vm_compute; reflexivity)|]).
  apply List.Forall_nil.
Qed.

Lemma example_models_ids :
  Forall (fun model => str_field model "id") example_models.
Proof.
  eapply Forall_impl; [apply example_models_raw|]. by intros m [Hid _].
Qed.

Lemma example_records_enriched :
  Forall enriched_model [example_gpt; example_flux; example_suno].
Proof.
  repeat (apply List.Forall_cons;
          [split_and!; (eexists; vm_compute; reflexivity)|]).
  apply List.Forall_nil.
Qed.

(** No keyword of the table occurs in "gpt-4o". *)
Lemma gpt_4o_no_keyword (g : string * list string) :
  g ∈ category_groups → ¬ contains_keyword g "gpt-4o".
Proof.
  intros Hg. apply not_contains_keyword.
  unfold category_groups in Hg.
  repeat (apply elem_of_cons in Hg as [->|Hg]; [vm_compute; reflexivity|]).
  by apply elem_of_nil in Hg.
Qed.

(** "FLUX-pro" has a keyword of the fourth group only; "gpt-4o" has none. *)
Lemma classify_single_group_witness :
  get_model_category (PyStr "FLUX-pro") (PyStr "bfl")
  = Ok "🎨 Image Generation"
  ∧ get_model_category (PyStr "gpt-4o") (PyStr "openai")
    = Ok "💬 Chat Completion".
Proof.
  split.
  - apply (proj1 (classify_single_group "FLUX-pro" (PyStr "bfl")) 3
             ("🎨 Image Generation",
              ["dall-e"; "dalle"; "midjourney"; "flux"; "sd"; "stable";
               "imagen"; "ideogram"])).
    + reflexivity.
    + apply contains_keyword_matches. vm_compute. reflexivity.
    + intros j g' Hne Hj. apply not_contains_keyword.
      do 8 (destruct j as [|j];
            [first [congruence
                   | injection Hj as <-; vm_compute; reflexivity]|]).
      discriminate.
  - apply (proj2 (classify_single_group "gpt-4o" (PyStr "openai"))).
    apply gpt_4o_no_keyword.
Defined.

(** "Video-Rerank-v1" has keywords of the first and of the seventh group. *)
Lemma classify_earlier_group_wins_witness :
  (get_model_category (PyStr "Video-Rerank-v1") PyNone
   = Ok "🎬 Video Generation"
   ∧ "🎬 Video Generation" ≠ "🔄 Rerank")
  ∧ get_model_category (PyStr "Video-Rerank-v1") PyNone
    = Ok "🎬 Video Generation".
Proof.
  split.
  - apply (proj1 (classify_earlier_group_wins "Video-Rerank-v1" PyNone) 0 6
             ("🎬 Video Generation",
              ["sora"; "runway"; "kling"; "luma"; "pika"; "video"])
             ("🔄 Rerank", ["rerank"])).
    + lia.
    + reflexivity.
    + reflexivity.
    + apply contains_keyword_matches. vm_compute. reflexivity.
    + apply contains_keyword_matches. vm_compute. reflexivity.
    + intros k gk Hk. lia.
  - apply (proj2 (classify_earlier_group_wins "Video-Rerank-v1" PyNone));
      vm_compute; reflexivity.
Defined.

(** The category filter "IMAGE" on the three records of the example, alone
    and together with the keyword "flux". *)
Lemma search_models_category_witness :
  Forall enriched_model [example_gpt; example_flux; example_suno]
  ∧ search_models [example_gpt; example_flux; example_suno] None
      (Some "IMAGE")
    = Ok (List.filter (category_contains "IMAGE")
            [example_gpt; example_flux; example_suno])
  ∧ ∃ both,
      search_models [example_gpt; example_flux; example_suno] (Some "flux")
        (Some "IMAGE") = Ok both
      ∧ length both
        ≤ length (List.filter (category_contains "IMAGE")
                    [example_gpt; example_flux; example_suno]).
Proof.
  split; [apply example_records_enriched|].
  apply (search_models_category _ (Some "flux") "IMAGE").
  apply example_records_enriched.
Defined.

(** The three models of the example are enriched into three records. *)
Lemma enrich_models_preserves_witness :
  Forall (fun model => str_field model "id") example_models
  ∧ ∃ enriched,
      enrich_models example_models example_pricing = Ok enriched
      ∧ length enriched = 3.
Proof.
  split; [apply example_models_ids|].
  destruct (enrich_models_preserves example_models example_pricing
              example_models_ids) as (enriched & He & Hlen & _).
  by exists enriched.
Defined.

(** The first of the three, "gpt-4o", becomes a Chat Completion record. *)
Lemma enrich_models_category_witness :
  ∃ enriched m,
    enrich_models example_models example_pricing = Ok enriched
    ∧ enriched !! 0 = Some m
    ∧ m !! "category" = Some (PyStr "💬 Chat Completion")
    ∧ ∃ c, m !! "category" = Some (PyStr c) ∧ c ∈ category_labels.
Proof.
  destruct (enrich_models_category example_models example_pricing)
    as [Hlabel Hchat].
  destruct (Hchat example_models_ids) as (enriched & He & Hdefault).
  destruct (Hdefault 0 (<["id" := PyStr "gpt-4o"]>
                          (<["owned_by" := PyStr "openai"]> ∅)) "gpt-4o")
    as (m & Hm & Hcat).
  - reflexivity.
  - vm_compute. reflexivity.
  - apply gpt_4o_no_keyword.
  - exists enriched, m. split_and!; [done..|].
    apply (Hlabel enriched m He). by apply list_elem_of_lookup_2 in Hm.
Defined.

(** The three pricing lines of the specification's example. *)
Lemma price_str_by_truth_value_witness :
  price_str example_flux = Ok "$2.5/request"
  ∧ price_str example_gpt = Ok "Input $1.0/1M, Output $3.0/1M"
  ∧ price_str example_suno = Ok "Pricing TBD"
  ∧ ∃ line before after,
      price_str example_flux = Ok line
      ∧ "1. **flux-pro**" +:+ nl
        +:+ "   - Category: 🎨 Image Generation" +:+ nl
        +:+ "   - Provider: bfl" +:+ nl
        +:+ "   - Pricing: $2.5/request" +:+ nl
        +:+ "   - Docs: https://docs.lemondata.cc/api-reference"
        = before +:+ "   - Pricing: " +:+ line +:+ nl +:+ after.
Proof.
  split_and!.
  - refine (eq_trans
              (proj1 (price_str_by_truth_value example_flux) _ _) _);
      vm_compute; reflexivity.
  - refine (eq_trans
              (proj1 (proj2 (price_str_by_truth_value example_gpt)) _ _ _)
              _); vm_compute; reflexivity.
  - refine (eq_trans
              (proj1 (proj2 (proj2 (price_str_by_truth_value example_suno)))
                 _ _) _); vm_compute; reflexivity.
  - apply (proj2 (proj2 (proj2 (price_str_by_truth_value example_flux)))
             1%Z).
    vm_compute. reflexivity.
Defined.

(** A free model is priced 0; its line is "Pricing TBD", where the wording
    by presence gives the two prices. *)
Lemma price_str_presence_counterexample :
  free_record !! "id" = Some (PyStr "free-chat")
  ∧ free_record !! "is_lock_price" = Some (PyBool false)
  ∧ free_record !! "per_request" = Some PyNone
  ∧ free_record !! "input_price" = Some (PyInt 0)
  ∧ free_record !! "output_price" = Some (PyInt 0)
  ∧ price_line_by_presence free_record = "Input $0/1M, Output $0/1M"
  ∧ price_str free_record = Ok "Pricing TBD"
  ∧ price_str free_record ≠ Ok (price_line_by_presence free_record).
Proof.
  split_and!; try (vm_compute; reflexivity).
  vm_compute. discriminate.
Qed.

(** "video" is not a label, so its endpoint is the default. *)
Lemma get_api_endpoint_table_witness :
  ("video" ∉ category_labels)
  ∧ get_api_endpoint (PyStr "video") = "/v1/chat/completions".
Proof.
  assert (Hc : "video" ∉ category_labels).
  { apply (bool_decide_unpack _). vm_compute. reflexivity. }
  split; [exact Hc|].
  destruct get_api_endpoint_table as (_ & _ & _ & _ & _ & _ & _ & _ & Hother).
  apply Hother, Hc.
Defined.

Lemma pricing_down_models :
  fetch_models pricing_down_net None = Ok example_models.
Proof.
  unfold fetch_models, pricing_down_net, except_request, raise_for_status.
  cbn [get_models bind json status_code error_text].
  by rewrite lookup_insert_eq.
Qed.


(** The record of a model without output price keeps the key with [None],
    and the line shows it. *)
Example price_str_input_only :
  input_only_record !! "category" = Some (PyStr "📊 Embeddings")
  ∧ input_only_record !! "output_price" = Some PyNone
  ∧ price_str input_only_record = Ok "Input $1.0/1M, Output $None/1M".
Proof. split_and!; vm_compute; reflexivity. Qed.

(** The end-to-end scenario: three models, no prices, no arguments. *)
Example main_statistics :
  main pricing_down_net ["search_api.py"]
  = ([ "Fetching latest model list from LemonData...";
       "✓ Success, found 3 models"; "";
       "Model category statistics:"; "";
       "🎨 Image Generation (1 models)"; "  - flux-pro"; "";
       "🎵 Music Generation (1 models)"; "  - suno-v3"; "";
       "💬 Chat Completion (1 models)"; "  - gpt-4o"; "";
       "API Endpoint: /v1/chat/completions"; "";
       "Search for specific models using keywords, e.g.:";
       "  python search_api.py GPT";
       "  python search_api.py claude";
       "  python search_api.py flux" ], 0%Z).
Proof. vm_compute. reflexivity. Qed.

(** The keyword "flux" finds one record, the category "video" none, and
    the run then lists the categories. *)
Example search_models_scenario :
  ids_of (search_models [example_gpt; example_flux; example_suno]
            (Some "flux") None)
  = Ok [Some (PyStr "flux-pro")]
  ∧ ids_of (search_models [example_gpt; example_flux; example_suno]
              None (Some "video"))
    = Ok []
  ∧ main pricing_down_net ["search_api.py"; ""; "video"]
    = ([ "Fetching latest model list from LemonData...";
         "✓ Success, found 3 models"; "";
         "Search results: 0 matching models"; "";
         "No matching models found, try different keywords"; "";
         "Available categories:";
         "  - 🎨 Image Generation (1 models)";
         "  - 🎵 Music Generation (1 models)";
         "  - 💬 Chat Completion (1 models)" ], 0%Z).
Proof. split_and!; vm_compute; reflexivity. Qed.

(** [--help] prints the usage and touches no network. *)
Example main_help (net : Network) :
  main net ["search_api.py"; "--help"] = (usage, 0%Z).
Proof. reflexivity. Qed.

(** A record whose [id] is not a string stops the enricher. *)
Example enrich_models_bad_id :
  enrich_models [ <["id" := PyInt 7]> ∅ ] ∅
  = Raise (AttributeError "'int' object has no attribute 'lower'").
Proof. vm_compute. reflexivity. Qed.

(** A price item without a [model] key is not a request failure: the
    KeyError leaves [fetch_pricing]. *)
Example fetch_pricing_missing_model (net : Network) (api_key : option string)
    (status : Z) (text : string) :
  (status < 400)%Z →
  get_pricing net PRICING_API_URL (auth_headers api_key) 30%Z
  = Ok {| status_code := status;
          error_text := text;
          json := Ok (<["data" := [ {| item_model := None;
                                       item_pricing := None |} ]]> ∅) |} →
  fetch_pricing net api_key = Raise (KeyError "model").
Proof.
  intros Hstatus Hget. unfold fetch_pricing, raise_for_status.
  rewrite Hget. cbn [bind status_code json].
  apply Z.leb_gt in Hstatus. rewrite Hstatus.
  cbn [andb bind]. by rewrite lookup_insert_eq.
Qed.

(** * Further properties *)

(** ** Catalog client *)

Lemma fold_r_app {A S : Type} (f : S → A → result S) (acc : S)
    (xs ys : list A) :
  fold_r f acc (xs ++ ys) = (acc' ←! fold_r f acc xs; fold_r f acc' ys).
Proof.
  revert acc. induction xs as [|x xs IH]; intros acc; simpl; [done|].
  destruct (f acc x) as [acc'|e]; simpl; [apply IH|done].
Qed.

Lemma add_pricing_missing (items : list pricing_item)
    (acc : gmap string (gmap string pyval)) :
  Exists (fun item => item_model item = None) items →
  fold_r add_pricing acc items = Raise (KeyError "model").
Proof.
  intros Hbad. revert acc.
  induction Hbad as [item items Hitem|item items _ IH]; intros acc; simpl.
  - unfold add_pricing. by rewrite Hitem.
  - unfold add_pricing at 1. destruct (item_model item); simpl; [apply IH|done].
Qed.

Lemma add_pricing_other (items : list pricing_item)
    (acc : gmap string (gmap string pyval)) (k : string) :
  Forall (fun item => is_Some (item_model item)) items →
  Forall (fun item => item_model item ≠ Some k) items →
  ∃ pricing,
    fold_r add_pricing acc items = Ok pricing ∧ pricing !! k = acc !! k.
Proof.
  intros Hall. revert acc.
  induction Hall as [|item items [model Hmodel] _ IH]; intros acc Hk; simpl.
  - by exists acc.
  - apply Forall_cons in Hk as [Hitem Hk].
    unfold add_pricing at 1. rewrite Hmodel. simpl.
    destruct (IH (<[model := default ∅ (item_pricing item)]> acc) Hk)
      as (pricing & -> & Hlook).
    exists pricing. split; [done|]. rewrite Hlook.
    apply lookup_insert_ne. congruence.
Qed.

Lemma add_pricing_keys (items : list pricing_item)
    (acc : gmap string (gmap string pyval)) :
  Forall (fun item => is_Some (item_model item)) items →
  ∃ pricing,
    fold_r add_pricing acc items = Ok pricing
    ∧ ∀ k, is_Some (pricing !! k)
           ↔ is_Some (acc !! k)
             ∨ Exists (fun item => item_model item = Some k) items.
Proof.
  intros Hall. revert acc.
  induction Hall as [|item items [model Hmodel] _ IH]; intros acc; simpl.
  - exists acc. split; [done|]. intros k. rewrite Exists_nil. tauto.
  - unfold add_pricing at 1. rewrite Hmodel. simpl.
    destruct (IH (<[model := default ∅ (item_pricing item)]> acc))
      as (pricing & -> & Hkeys).
    exists pricing. split; [done|]. intros k.
    rewrite Hkeys, Exists_cons, Hmodel.
    destruct (decide (model = k)) as [->|Hne].
    + rewrite lookup_insert_eq. split; [|by eauto]. intros _. right. by left.
    + rewrite lookup_insert_ne by done. split.
      * intros [?|?]; [by left|right; by right].
      * intros [?|[?|?]]; [by left|congruence|by right].
Qed.

Lemma fetch_pricing_served (net : Network) (api_key : option string)
    (items : list pricing_item) :
  pricing_served net api_key items →
  fetch_pricing net api_key
  = except_request (fold_r add_pricing ∅ items) (fun _ => Ok ∅).
Proof.
  intros (response & data & Hget & Hstatus & Hjson & Hitems).
  unfold fetch_pricing. by rewrite Hget, <- Hitems; simpl; rewrite Hstatus, Hjson.
Qed.

Section FurtherClient.
Context `{PyRuntime}.

(** X1: a price item without a [model] key makes [fetch_pricing] raise
    KeyError, which is no RequestException and is not caught there; [main]
    catches it, prints it and ends with exit status 1. *)
Theorem fetch_pricing_malformed_item (net : Network)
    (items : list pricing_item) :
  pricing_served net None items →
  Exists (fun item => item_model item = None) items →
  fetch_pricing net None = Raise (KeyError "model")
  ∧ ∀ argv models,
      argv !! 1 ≠ Some "-h" → argv !! 1 ≠ Some "--help" →
      fetch_models net None = Ok models →
      main net argv
      = ([ "Fetching latest model list from LemonData..."; "✗ 'model'" ],
         1%Z).
Proof.
  intros Hserved Hbad.
  assert (fetch_pricing net None = Raise (KeyError "model")) as Hfetch.
  { rewrite (fetch_pricing_served _ _ _ Hserved).
    by rewrite add_pricing_missing. }
  split; [done|]. intros argv models Hh Hhelp Hmodels.
  unfold main, main_body, io_bind at 1.
  assert (match argv !! 1 with
          | Some arg =>
              if decide (arg = "-h" ∨ arg = "--help")
              then io_for usage print ;$ sys_exit 0%Z
              else io_ret tt
          | None => io_ret tt
          end [] = ([], Done tt)) as ->.
  { destruct (argv !! 1) as [arg|]; [|done].
    destruct (decide _) as [[->| ->]|_]; done. }
  unfold io_bind, load, io_bind, try_except, print, lift, sys_exit.
  by rewrite Hmodels, Hfetch.
Qed.

End FurtherClient.

(** X2: when every price item has a [model], [fetch_pricing] returns a
    mapping whose keys are the models of the items, and a model that occurs
    in several items keeps the [pricing] of its last item (the empty record
    when that item has none). *)
Theorem fetch_pricing_last_item (net : Network) (api_key : option string)
    (items : list pricing_item) :
  pricing_served net api_key items →
  Forall (fun item => is_Some (item_model item)) items →
  ∃ pricing,
    fetch_pricing net api_key = Ok pricing
    ∧ (∀ k, is_Some (pricing !! k)
            ↔ Exists (fun item => item_model item = Some k) items)
    ∧ ∀ before item after k,
        items = before ++ item :: after →
        item_model item = Some k →
        Forall (fun later => item_model later ≠ Some k) after →
        pricing !! k = Some (default ∅ (item_pricing item)).
Proof.
  intros Hserved Hall.
  rewrite (fetch_pricing_served _ _ _ Hserved).
  destruct (add_pricing_keys items ∅ Hall) as (pricing & Hfold & Hkeys).
  exists pricing. rewrite Hfold. split; [done|]. split.
  - intros k. rewrite Hkeys, lookup_empty. split; [|by right].
    intros [[? [=]]|?]; done.
  - intros before item after k -> Hitem Hafter.
    apply Forall_app in Hall as [Hbefore Hrest].
    apply Forall_cons in Hrest as [_ Hrest].
    rewrite fold_r_app in Hfold.
    destruct (add_pricing_keys before ∅ Hbefore) as (acc & Hacc & _).
    rewrite Hacc in Hfold. simpl in Hfold.
    unfold add_pricing at 1 in Hfold. rewrite Hitem in Hfold. simpl in Hfold.
    destruct (add_pricing_other after
                (<[k := default ∅ (item_pricing item)]> acc) k Hrest Hafter)
      as (pricing' & Hfold' & Hlook).
    rewrite Hfold' in Hfold. injection Hfold as <-.
    by rewrite Hlook, lookup_insert_eq.
Qed.

(** X3: when the body of an answer does not parse, the exception that
    [json()] raises decides: a RequestException is handled like a failed
    request ([fetch_models] raises "Failed to fetch model list",
    [fetch_pricing] returns the empty mapping), any other exception leaves
    both functions as it is. *)
Theorem fetch_body_raises (net : Network) (api_key : option string)
    (e : exn) :
  (body_raises (get_models net MODELS_API_URL (auth_headers api_key) 30%Z) e →
   fetch_models net api_key
   = match e with
     | RequestException msg =>
         Raise (Exception ("Failed to fetch model list: " +:+ msg))
     | _ => Raise e
     end)
  ∧ (body_raises
       (get_pricing net PRICING_API_URL (auth_headers api_key) 30%Z) e →
     fetch_pricing net api_key
     = match e with
       | RequestException _ => Ok ∅
       | _ => Raise e
       end).
Proof.
  split; intros (response & Hget & Hstatus & Hjson).
  - unfold fetch_models. rewrite Hget. simpl. rewrite Hstatus, Hjson.
    by destruct e.
  - unfold fetch_pricing. rewrite Hget. simpl. rewrite Hstatus, Hjson.
    by destruct e.
Qed.

(** ** Classifier and enricher *)

Lemma str_in_trans (x a b : string) :
  str_in x a = true → str_in a b = true → str_in x b = true.
Proof.
  rewrite !str_in_app. intros (p1 & q1 & ->) (p2 & q2 & ->).
  exists (p2 +:+ p1), (q1 +:+ q2). by rewrite !append_assoc.
Qed.

Lemma first_index_le {A : Type} (p q : A → bool) (l : list A) :
  (∀ x, x ∈ l → p x = true → q x = true) →
  first_index q l ≤ first_index p l.
Proof.
  induction l as [|x l IH]; intros Himp; simpl; [done|].
  destruct (p x) eqn:Hp.
  - rewrite (Himp x); [done|by left|done].
  - destruct (q x); [lia|].
    apply le_n_S, IH. intros y Hy. apply Himp. by right.
Qed.

Lemma find_first_index {A : Type} (p : A → bool) (l : list A) :
  List.find p l = l !! first_index p l.
Proof.
  induction l as [|x l IH]; simpl; [done|]. by destruct (p x).
Qed.

Lemma for_each_stops {A B : Type} (f : A → result B) (good : list A)
    (bad : A) (rest : list A) (e : exn) :
  Forall (fun x => ∃ y, f x = Ok y) good →
  f bad = Raise e →
  for_each f (good ++ bad :: rest) = Raise e.
Proof.
  intros Hgood Hbad.
  induction Hgood as [|x good [y Hy] _ IH]; simpl.
  - by rewrite Hbad.
  - by rewrite Hy, IH.
Qed.

Lemma for_each_ext {A B : Type} (f g : A → result B) (xs : list A) :
  Forall (fun x => f x = g x) xs → for_each f xs = for_each g xs.
Proof.
  induction 1 as [|x xs Hx _ IH]; simpl; [done|]. by rewrite Hx, IH.
Qed.

Section FurtherEnricher.
Context `{PyRuntime}.

Lemma get_model_category_rank (model_id : string) (owned_by : pyval) :
  get_model_category (PyStr model_id) owned_by
  = Ok (default "💬 Chat Completion"
          (category_labels !! category_rank model_id)).
Proof.
  rewrite get_model_category_first_match. f_equal.
  unfold first_match, category_rank, category_labels.
  rewrite find_first_index, list_lookup_fmap.
  by destruct (category_groups !! _).
Qed.

(** X4: text added around an identifier never moves it down the priority
    table: when the lower-cased [a] occurs in the lower-cased [b], the
    group that classifies [b] comes no later than the group that classifies
    [a]; the category is the label at that position. *)
Theorem classify_extension (a b : string) (owned_by : pyval) :
  str_in (str_lower a) (str_lower b) = true →
  category_rank b ≤ category_rank a
  ∧ get_model_category (PyStr a) owned_by
    = Ok (default "💬 Chat Completion"
            (category_labels !! category_rank a))
  ∧ get_model_category (PyStr b) owned_by
    = Ok (default "💬 Chat Completion"
            (category_labels !! category_rank b)).
Proof.
  intros Hab. split; [|split; apply get_model_category_rank].
  apply first_index_le. intros g _. unfold group_matches.
  rewrite !any_in_elem. intros (kw & Hkw & Hin). exists kw. split; [done|].
  by apply (str_in_trans kw (str_lower a)).
Qed.

(** X5: the first model whose [id] is [null], a boolean or a number stops
    [enrich_models] with the AttributeError of its [lower] call; no record
    is returned, also for the models before it. *)
Theorem enrich_models_first_bad_id
    (good : list (gmap string pyval)) (bad : gmap string pyval)
    (rest : list (gmap string pyval))
    (pricing : gmap string (gmap string pyval)) (v : pyval) :
  Forall (fun model => str_field model "id") good →
  dict_get bad "id" (PyStr "") = v →
  v = PyNone ∨ (∃ b, v = PyBool b) ∨ (∃ z, v = PyInt z)
  ∨ (∃ f, v = PyFloat f) →
  enrich_models (good ++ bad :: rest) pricing
  = Raise (AttributeError
             ("'" +:+ type_name v +:+ "' object has no attribute 'lower'")).
Proof.
  intros Hgood Hv Hscalar. apply for_each_stops.
  - eapply Forall_impl; [exact Hgood|]. intros model. apply enrich_model_ok.
  - unfold enrich_model. rewrite Hv.
    by destruct Hscalar as [->|[[b ->]|[[z ->]|[f ->]]]].
Qed.

(** X6: a record built by the enricher has the seven fields of an
    EnrichedModel and no other, whatever fields the model of the catalog
    has. *)
Theorem enrich_model_keys (pricing : gmap string (gmap string pyval))
    (model m : gmap string pyval) :
  enrich_model pricing model = Ok m →
  ∀ key, is_Some (m !! key) ↔ key ∈ enriched_keys.
Proof.
  unfold enrich_model.
  destruct (get_model_category _ _) as [category|e]; [|done]. simpl.
  intros [= <-] key. rewrite <- elem_of_dom.
  rewrite !dom_insert_L, dom_empty_L. unfold enriched_keys. set_solver.
Qed.

(** X7: the price entries of other ids play no part: two price lists that
    agree on the ids of the models give the same enrichment. *)
Theorem enrich_models_pricing_local (models : list (gmap string pyval))
    (pricing1 pricing2 : gmap string (gmap string pyval)) :
  (∀ model s,
      model ∈ models → dict_get model "id" (PyStr "") = PyStr s →
      pricing1 !! s = pricing2 !! s) →
  enrich_models models pricing1 = enrich_models models pricing2.
Proof.
  intros Hagree. apply for_each_ext, Forall_forall. intros model Hmodel.
  unfold enrich_model.
  destruct (dict_get model "id" (PyStr "")) as [| | | |s] eqn:Hid; try done.
  unfold pricing_get. by rewrite (Hagree model s Hmodel Hid).
Qed.

(** X8: every category that the classifier gives has its own line in the
    endpoint table, so a classified model never takes the default endpoint
    by a missing key; and the table has no key besides the eight labels. *)
Theorem category_has_endpoint :
  (∀ model_id owned_by,
      ∃ c, get_model_category (PyStr model_id) owned_by = Ok c
           ∧ endpoints !! c = Some (get_api_endpoint (PyStr c)))
  ∧ ∀ c, is_Some (endpoints !! c) ↔ c ∈ category_labels.
Proof.
  assert (∀ c, c ∈ category_labels → is_Some (endpoints !! c)) as Hin.
  { intros c Hc. unfold category_labels, category_groups in Hc. simpl in Hc.
    repeat (apply elem_of_cons in Hc as [->|Hc];
            [vm_compute; by eexists|]).
    by apply elem_of_nil in Hc. }
  split.
  - intros model_id owned_by. exists (first_match model_id).
    split; [apply get_model_category_first_match|].
    destruct (Hin _ (first_match_label model_id)) as [endpoint Hendpoint].
    unfold get_api_endpoint. by rewrite Hendpoint.
  - intros c. split; [|apply Hin].
    intros [endpoint Hendpoint].
    destruct (decide (c ∈ category_labels)) as [|Hout]; [done|].
    by rewrite (endpoints_other c Hout) in Hendpoint.
Qed.

End FurtherEnricher.

(** ** Presenter and search engine *)

Lemma filter_r_sublist {A : Type} (p : A → result bool) (ms kept : list A) :
  filter_r p ms = Ok kept → sublist kept ms.
Proof.
  revert kept. induction ms as [|m ms IH]; intros kept; simpl.
  - by intros [= <-].
  - destruct (p m) as [keep|e]; [|done]. simpl.
    destruct (filter_r p ms) as [rest|e]; [|done]. simpl.
    intros [= <-]. destruct keep.
    + by apply sublist_skip, IH.
    + by apply sublist_cons, IH.
Qed.

Lemma filter_r_stops {A : Type} (p : A → result bool) (good : list A)
    (bad : A) (rest : list A) (e : exn) :
  Forall (fun m => ∃ keep, p m = Ok keep) good →
  p bad = Raise e →
  filter_r p (good ++ bad :: rest) = Raise e.
Proof.
  intros Hgood Hbad.
  induction Hgood as [|m good [keep Hm] _ IH]; simpl.
  - by rewrite Hbad.
  - by rewrite Hm, IH.
Qed.

Lemma filter_filter_comm {A : Type} (p q : A → bool) (l : list A) :
  List.filter p (List.filter q l) = List.filter q (List.filter p l).
Proof.
  induction l as [|x l IH]; simpl; [done|].
  destruct (p x) eqn:Hp, (q x) eqn:Hq; simpl; rewrite ?Hp, ?Hq, IH; done.
Qed.

Lemma filter_filter_same {A : Type} (p : A → bool) (l : list A) :
  List.filter p (List.filter p l) = List.filter p l.
Proof.
  induction l as [|x l IH]; simpl; [done|].
  destruct (p x) eqn:Hp; simpl; rewrite ?Hp, IH; done.
Qed.

Lemma filter_all {A : Type} (p : A → bool) (l : list A) :
  Forall (fun x => p x = true) l → List.filter p l = l.
Proof.
  induction 1 as [|x l Hx _ IH]; simpl; [done|]. by rewrite Hx, IH.
Qed.

Lemma filter_implied {A : Type} (p q : A → bool) (l : list A) :
  (∀ x, q x = true → p x = true) →
  List.filter p (List.filter q l) = List.filter q l.
Proof.
  intros Himp. apply filter_all, Forall_forall. intros x Hx.
  apply list_elem_of_In, filter_In in Hx as [_ Hq]. by apply Himp.
Qed.

Section FurtherSearch.
Context `{PyRuntime}.

Lemma keyword_matches_contains (keyword : string) (m : gmap string pyval) :
  enriched_model m →
  keyword_matches (str_lower keyword) m = Ok (keyword_contains keyword m).
Proof.
  intros ([i Hi] & [o Ho] & [c Hc]).
  unfold keyword_matches, keyword_contains, dict_get.
  rewrite Hi, Ho, Hc. simpl.
  destruct (str_in _ (str_lower i)); [done|].
  by destruct (str_in _ (str_lower o)).
Qed.

(** On EnrichedModels [search_models] is the category filter followed by
    the keyword filter. *)
Lemma search_models_filters (models : list (gmap string pyval))
    (keyword category : option string) :
  Forall enriched_model models →
  search_models models keyword category
  = Ok (List.filter (keeps_keyword keyword)
          (List.filter (keeps_category category) models)).
Proof.
  intros Hwf. unfold search_models, keeps_keyword, keeps_category.
  assert (List.filter (fun _ : gmap string pyval => true) models = models)
    as Hall by (apply filter_all, Forall_forall; done).
  destruct (given category) as [c|]; simpl.
  - rewrite (filter_r_total _ (category_contains c)).
    2:{ eapply Forall_impl; [exact Hwf|].
        intros m (_ & _ & Hc). by apply category_matches_contains. }
    simpl. destruct (given keyword) as [k|]; simpl.
    + rewrite (filter_r_total _ (keyword_contains k)); [done|].
      eapply Forall_impl; [by apply Forall_filter|].
      intros m Hm. by apply keyword_matches_contains.
    + f_equal. symmetry. apply filter_all, Forall_forall. done.
  - rewrite Hall. destruct (given keyword) as [k|]; simpl.
    + rewrite (filter_r_total _ (keyword_contains k)); [done|].
      eapply Forall_impl; [exact Hwf|].
      intros m Hm. by apply keyword_matches_contains.
    + f_equal. symmetry. apply filter_all, Forall_forall. done.
Qed.

(** X9: whatever [search_models] returns is a sublist of its input: no
    record is added, repeated or moved; on EnrichedModels it always
    returns. *)
Theorem search_models_sublist (models : list (gmap string pyval))
    (keyword category : option string) :
  (∀ results,
      search_models models keyword category = Ok results →
      sublist results models)
  ∧ (Forall enriched_model models →
     ∃ results,
       search_models models keyword category = Ok results
       ∧ sublist results models
       ∧ Forall enriched_model results).
Proof.
  assert (∀ results,
            search_models models keyword category = Ok results →
            sublist results models) as Hsub.
  { intros results. unfold search_models.
    destruct (match given category with
              | Some c => filter_r (category_matches (str_lower c)) models
              | None => Ok models
              end) as [narrowed|e] eqn:Hcat; [|done]. simpl.
    assert (sublist narrowed models) as Hnarrowed.
    { destruct (given category); [by eapply filter_r_sublist|].
      by injection Hcat as <-. }
    destruct (match given keyword with
              | Some k => filter_r (keyword_matches (str_lower k)) narrowed
              | None => Ok narrowed
              end) as [kept|e] eqn:Hkw; [|done]. simpl.
    intros [= <-]. transitivity narrowed; [|done].
    destruct (given keyword); [by eapply filter_r_sublist|].
    by injection Hkw as <-. }
  split; [done|]. intros Hwf.
  rewrite (search_models_filters _ _ _ Hwf). eexists. split; [done|].
  split; [apply Hsub; by rewrite (search_models_filters _ _ _ Hwf)|].
  by do 2 apply Forall_filter.
Qed.

(** X10: the two filters may be run one after the other, as two searches;
    on EnrichedModels their order does not matter. *)
Theorem search_models_two_steps (models : list (gmap string pyval))
    (keyword category : option string) :
  search_models models keyword category
  = (narrowed ←! search_models models None category;
     search_models narrowed keyword None)
  ∧ (Forall enriched_model models →
     search_models models keyword category
     = (narrowed ←! search_models models keyword None;
        search_models narrowed None category)).
Proof.
  split.
  - unfold search_models. simpl.
    destruct (match given category with
              | Some c => filter_r (category_matches (str_lower c)) models
              | None => Ok models
              end) as [narrowed|e]; [|done]. simpl.
    by destruct (match given keyword with
                 | Some k => filter_r (keyword_matches (str_lower k)) narrowed
                 | None => Ok narrowed
                 end).
  - intros Hwf.
    rewrite !(search_models_filters models) by done. simpl.
    rewrite search_models_filters by (by do 2 apply Forall_filter).
    f_equal. unfold keeps_keyword at 2, keeps_category at 2. simpl.
    rewrite !(filter_all (fun _ => true)) by (apply Forall_forall; done).
    apply filter_filter_comm.
Qed.

(** X11: searching the result of a search again, with the same keyword and
    category, changes nothing. *)
Theorem search_models_idempotent (models results : list (gmap string pyval))
    (keyword category : option string) :
  Forall enriched_model models →
  search_models models keyword category = Ok results →
  search_models results keyword category = Ok results.
Proof.
  intros Hwf. rewrite (search_models_filters _ _ _ Hwf). intros [= <-].
  rewrite search_models_filters by (by do 2 apply Forall_filter). f_equal.
  rewrite (filter_filter_comm (keeps_category category)
             (keeps_keyword keyword)).
  by rewrite !filter_filter_same.
Qed.

(** X12: the keyword filter looks at the category too, so a text given as
    category and as keyword at once selects what it selects as category
    alone. *)
Theorem search_models_keyword_covers_category
    (models : list (gmap string pyval)) (text : string) :
  Forall enriched_model models →
  search_models models (Some text) (Some text)
  = search_models models None (Some text).
Proof.
  intros Hwf. rewrite !search_models_filters by done. f_equal.
  rewrite (filter_all (keeps_keyword None)) by (apply Forall_forall; done).
  apply filter_implied. intros m.
  unfold keeps_keyword, keeps_category. simpl.
  destruct (String.eqb text ""); [done|].
  unfold category_contains, keyword_contains.
  destruct (default (PyStr "") (m !! "category")); try done.
  intros ->. apply orb_true_r.
Qed.

(** X13: the keyword filter stops at the first field that matches. A
    record whose [id] contains the keyword is kept whatever its provider
    is; a record whose [id] does not contain it and whose provider is not a
    string (a [null] in the catalog) makes [search_models] raise
    AttributeError. *)
Theorem search_models_keyword_short_circuit (keyword : string) :
  keyword ≠ "" →
  (∀ models,
      Forall (fun m => ∃ i, default (PyStr "") (m !! "id") = PyStr i
                            ∧ str_in (str_lower keyword) (str_lower i) = true)
        models →
      search_models models (Some keyword) None = Ok models)
  ∧ ∀ good bad rest i v,
      Forall enriched_model good →
      default (PyStr "") (bad !! "id") = PyStr i →
      str_in (str_lower keyword) (str_lower i) = false →
      default (PyStr "") (bad !! "owned_by") = v →
      (∀ s, v ≠ PyStr s) →
      search_models (good ++ bad :: rest) (Some keyword) None
      = Raise (AttributeError
                 ("'" +:+ type_name v +:+ "' object has no attribute 'lower'")).
Proof.
  intros Hkw. apply String.eqb_neq in Hkw.
  split.
  - intros models Hids. unfold search_models. simpl. rewrite Hkw.
    rewrite (filter_r_total _ (fun _ => true)).
    + simpl. f_equal. apply filter_all, Forall_forall. done.
    + eapply Forall_impl; [exact Hids|]. intros m (i & Hi & Hin).
      unfold keyword_matches, dict_get. by rewrite Hi; simpl; rewrite Hin.
  - intros good bad rest i v Hgood Hi Hin Hv Hnot.
    unfold search_models. simpl. rewrite Hkw.
    rewrite (filter_r_stops _ good bad rest
               (AttributeError
                  ("'" +:+ type_name v +:+ "' object has no attribute 'lower'")));
      [done| |].
    + eapply Forall_impl; [exact Hgood|]. intros m Hm.
      apply keyword_matches_ok, Hm.
    + unfold keyword_matches, dict_get. rewrite Hi. simpl. rewrite Hin, Hv.
      destruct v as [| | | |s]; try done. by destruct (Hnot s).
Qed.

(** X14: [format_model_info] raises KeyError for the first of [id],
    [category] and [owned_by] that the record lacks, and returns a text
    when the three are there; the prices never make it fail. *)
Theorem format_model_info_missing_key (model : gmap string pyval)
    (index : Z) :
  (model !! "id" = None →
   format_model_info model index = Raise (KeyError "id"))
  ∧ (is_Some (model !! "id") → model !! "category" = None →
     format_model_info model index = Raise (KeyError "category"))
  ∧ (is_Some (model !! "id") → is_Some (model !! "category") →
     model !! "owned_by" = None →
     format_model_info model index = Raise (KeyError "owned_by"))
  ∧ (is_Some (model !! "id") → is_Some (model !! "category") →
     is_Some (model !! "owned_by") →
     ∃ text, format_model_info model index = Ok text).
Proof.
  unfold format_model_info, dict_item.
  destruct (price_str_ok model) as [line ->]. simpl.
  split_and!.
  - by intros ->.
  - by intros [id ->] ->.
  - by intros [id ->] [category ->] ->.
  - intros [id ->] [category ->] [owned_by ->]. simpl. by eexists.
Qed.

(** X15: every record that the enricher builds can be printed: for any
    catalog model and price list, [format_model_info] returns a text for it,
    also when the provider is not a string. *)
Theorem enriched_record_prints (pricing : gmap string (gmap string pyval))
    (model m : gmap string pyval) (index : Z) :
  enrich_model pricing model = Ok m →
  ∃ text line,
    format_model_info m index = Ok text
    ∧ price_str m = Ok line.
Proof.
  intros Hbuilt.
  destruct (enrich_model_fields _ _ _ Hbuilt)
    as (Hid & Hown & (s & _ & Hcat) & _).
  destruct (price_str_ok m) as [line Hline].
  unfold format_model_info, dict_item. rewrite Hline, Hid, Hcat, Hown. simpl.
  by eexists _, _.
Qed.

End FurtherSearch.

(** ** Command line entry *)

Lemma exits_ret {A : Type} (a : A) : exits_0_or_1 (io_ret a).
Proof. by intros out. Qed.

Lemma exits_print (line : string) : exits_0_or_1 (print line).
Proof. by intros out. Qed.

Lemma exits_lift {A : Type} (r : result A) : exits_0_or_1 (lift r).
Proof. intros out. by destruct r. Qed.

Lemma exits_sys_exit_0 {A : Type} : exits_0_or_1 (sys_exit (A := A) 0%Z).
Proof. intros out. by left. Qed.

Lemma exits_sys_exit_1 {A : Type} : exits_0_or_1 (sys_exit (A := A) 1%Z).
Proof. intros out. by right. Qed.

Lemma exits_bind {A B : Type} (m : io A) (k : A → io B) :
  exits_0_or_1 m → (∀ a, exits_0_or_1 (k a)) → exits_0_or_1 (io_bind m k).
Proof.
  intros Hm Hk out. unfold io_bind. specialize (Hm out).
  destruct (m out) as [out' [a|code|e]]; simpl in *; [apply Hk|done..].
Qed.

Lemma exits_try_except {A : Type} (m : io A) (h : exn → io A) :
  exits_0_or_1 m → (∀ e, exits_0_or_1 (h e)) →
  exits_0_or_1 (try_except m h).
Proof.
  intros Hm Hh out. unfold try_except. specialize (Hm out).
  destruct (m out) as [out' [a|code|e]]; simpl in *; [done..|apply Hh].
Qed.

Lemma exits_for {A : Type} (xs : list A) (body : A → io unit) :
  (∀ x, exits_0_or_1 (body x)) → exits_0_or_1 (io_for xs body).
Proof.
  intros Hbody. induction xs as [|x xs IH]; simpl; [apply exits_ret|].
  by apply exits_bind.
Qed.

Ltac exits_step :=
  lazymatch goal with
  | |- exits_0_or_1 (io_bind _ _) => apply exits_bind; [|intros ?]
  | |- exits_0_or_1 (try_except _ _) => apply exits_try_except; [|intros ?]
  | |- exits_0_or_1 (io_for _ _) => apply exits_for; intros ?
  | |- exits_0_or_1 (print _) => apply exits_print
  | |- exits_0_or_1 (io_ret _) => apply exits_ret
  | |- exits_0_or_1 (lift _) => apply exits_lift
  | |- exits_0_or_1 (sys_exit 0%Z) => apply exits_sys_exit_0
  | |- exits_0_or_1 (sys_exit 1%Z) => apply exits_sys_exit_1
  | |- exits_0_or_1 (if ?b then _ else _) => destruct b
  | |- exits_0_or_1 (match ?x with _ => _ end) => destruct x
  | |- exits_0_or_1 ((fun _ => _) _) => lazy beta
  end.

Ltac exits_all := repeat exits_step.






Lemma group_add_filter (models : list (gmap string pyval))
    (acc : gmap string (list (gmap string pyval))) :
  Forall text_fields models →
  ∃ categories,
    fold_r group_add acc models = Ok categories
    ∧ (∀ c, default [] (categories !! c)
            = default [] (acc !! c) ++ List.filter (has_category c) models)
    ∧ ∀ c, is_Some (categories !! c)
           ↔ is_Some (acc !! c)
             ∨ Exists (fun m => has_category c m = true) models.
Proof.
  intros Hmodels. revert acc.
  induction Hmodels as [|m ms (i & o & cat & _ & _ & Hcat) _ IH];
    intros acc; simpl.
  - exists acc. split; [done|]. split.
    + intros c. by rewrite app_nil_r.
    + intros c. rewrite Exists_nil. tauto.
  - unfold group_add at 1, category_of, dict_item. rewrite Hcat. simpl.
    destruct (IH (<[cat := default [] (acc !! cat) ++ [m]]> acc))
      as (categories & -> & Hlists & Hkeys).
    exists categories. split; [done|]. split.
    + intros c. rewrite Hlists. unfold has_category at 2. rewrite Hcat.
      destruct (String.eqb_spec cat c) as [->|Hne].
      * rewrite lookup_insert_eq. simpl. by rewrite <- app_assoc.
      * by rewrite lookup_insert_ne.
    + intros c. rewrite Hkeys, Exists_cons. unfold has_category at 2.
      rewrite Hcat.
      destruct (String.eqb_spec cat c) as [->|Hne].
      * rewrite lookup_insert_eq. split; [|by eauto]. intros _. right. by left.
      * rewrite lookup_insert_ne by done. split.
        -- intros [?|?]; [by left|right; by right].
        -- intros [?|[?|?]]; [by left|done|by right].
Qed.

Section FurtherRun.
Context `{PyRuntime}.

Lemma show_search_exits (models : list (gmap string pyval))
    (keyword category : option string) :
  exits_0_or_1 (show_search models keyword category).
Proof. unfold show_search. exits_all. Qed.

Lemma show_statistics_exits (models : list (gmap string pyval)) :
  exits_0_or_1 (show_statistics models).
Proof. unfold show_statistics. exits_all. Qed.

(** X16: the exit status of a run is 0 or 1, whatever the arguments and
    whatever the network answers. *)
Theorem main_exit_0_or_1 (net : Network) (argv : list string) :
  (main net argv).2 = 0%Z ∨ (main net argv).2 = 1%Z.
Proof.
  assert (exits_0_or_1 (main_body net argv)) as Hrun.
  { unfold main_body, load. exits_all;
      first [apply show_search_exits | apply show_statistics_exits]. }
  unfold main. specialize (Hrun []).
  destruct (main_body net argv []) as [out [a|code|e]]; simpl in *; tauto.
Qed.

(** X17: with [-h] or [--help] as first argument the run prints the usage
    and ends with status 0; the network is not consulted and the other
    arguments do not matter. *)
Theorem main_help_first (net : Network) (argv : list string) :
  argv !! 1 = Some "-h" ∨ argv !! 1 = Some "--help" →
  main net argv = (usage, 0%Z).
Proof.
  intros Hhelp. unfold main, main_body, io_bind at 1.
  by destruct Hhelp as [-> | ->].
Qed.

(** X18: an empty first argument is no keyword and an empty second
    argument is no category: with both missing or empty the run is the one
    without arguments, the category statistics. *)
Theorem main_empty_arguments (net : Network) (argv : list string) :
  argv !! 1 = None ∨ argv !! 1 = Some "" →
  argv !! 2 = None ∨ argv !! 2 = Some "" →
  main net argv = main net [].
Proof.
  intros Hkeyword Hcategory. unfold main, main_body.
  by destruct Hkeyword as [-> | ->], Hcategory as [-> | ->].
Qed.

(** X19: a run makes two requests only, the model list and the price list,
    each without headers and with a timeout of 30: two networks that answer
    these two requests alike give the same run. *)
Theorem main_two_requests (net1 net2 : Network) (argv : list string) :
  get_models net1 MODELS_API_URL ∅ 30%Z
  = get_models net2 MODELS_API_URL ∅ 30%Z →
  get_pricing net1 PRICING_API_URL ∅ 30%Z
  = get_pricing net2 PRICING_API_URL ∅ 30%Z →
  main net1 argv = main net2 argv.
Proof.
  intros Hmodels Hpricing.
  assert (load net1 = load net2) as Hload.
  { unfold load, fetch_models, fetch_pricing.
    change (auth_headers None) with (∅ : gmap string string).
    by rewrite Hmodels, Hpricing. }
  unfold main, main_body. by rewrite Hload.
Qed.

(** X20: the statistics file every model under its category: the group of
    a category holds the models of that category in the order of the
    catalog, and a category has a group exactly when a model has it. *)
Theorem group_add_by_category (models : list (gmap string pyval)) :
  Forall text_fields models →
  ∃ categories,
    fold_r group_add ∅ models = Ok categories
    ∧ (∀ c, default [] (categories !! c)
            = List.filter (has_category c) models)
    ∧ ∀ c, is_Some (categories !! c)
           ↔ Exists (fun m => has_category c m = true) models.
Proof.
  intros Hmodels.
  destruct (group_add_filter models ∅ Hmodels)
    as (categories & Hfold & Hlists & Hkeys).
  exists categories. split; [done|]. split.
  - intros c. by rewrite Hlists, lookup_empty.
  - intros c. rewrite Hkeys, lookup_empty. split; [|by right].
    intros [[? [=]]|?]; done.
Qed.

End FurtherRun.

Section FurtherOutput.
Context `{PyRuntime}.


(** X22: an empty catalog is no error: the run without arguments prints
    the statistics without any category, a search prints that nothing was
    found and an empty list of categories, and both end with status 0. *)
Theorem main_empty_catalog (net : Network)
    (pricing : gmap string (gmap string pyval)) (prog keyword : string) :
  fetch_models net None = Ok [] →
  fetch_pricing net None = Ok pricing →
  keyword ≠ "" → keyword ≠ "-h" → keyword ≠ "--help" →
  main net [prog]
  = ([ "Fetching latest model list from LemonData...";
       "✓ Success, found 0 models"; "";
       "Model category statistics:"; "";
       "API Endpoint: /v1/chat/completions"; "";
       "Search for specific models using keywords, e.g.:";
       "  python search_api.py GPT";
       "  python search_api.py claude";
       "  python search_api.py flux" ], 0%Z)
  ∧ main net [prog; keyword]
    = ([ "Fetching latest model list from LemonData...";
         "✓ Success, found 0 models"; "";
         "Search results: 0 matching models"; "";
         "No matching models found, try different keywords"; "";
         "Available categories:" ], 0%Z).
Proof.
  intros Hmodels Hpricing Hkeyword Hh Hhelp.
  assert (∀ out, load net out
                 = (out ++ [ "Fetching latest model list from LemonData...";
                             "✓ Success, found 0 models"; "" ], Done []))
    as Hload.
  { intros out. by apply (load_ok net [] [] pricing). }
  split.
  - unfold main, main_body, io_bind. simpl. rewrite Hload.
    unfold show_statistics, io_bind. simpl.
    by rewrite map_to_list_empty.
  - unfold main, main_body, io_bind. simpl.
    destruct (decide (keyword = "-h" ∨ keyword = "--help")) as [[?|?]|_];
      [done..|].
    simpl. rewrite Hload.
    apply String.eqb_neq in Hkeyword. rewrite Hkeyword.
    unfold show_search, search_models, io_bind. simpl.
    by rewrite Hkeyword.
Qed.

End FurtherOutput.

(** ** Worked examples of the further properties *)

Lemma example_records_text :
  Forall text_fields [example_gpt; example_flux; example_suno].
Proof.
  repeat (apply List.Forall_cons;
          [eexists _, _, _; split_and!; vm_compute; reflexivity|]).
  apply List.Forall_nil.
Qed.

Lemma serving_net_serves (items : list pricing_item)
    (api_key : option string) :
  pricing_served (serving_net items) api_key items.
Proof.
  eexists _, _. split_and!; [reflexivity..|].
  by rewrite lookup_insert_eq.
Qed.

Lemma fetch_pricing_malformed_item_witness :
  fetch_pricing (serving_net broken_items) None = Raise (KeyError "model")
  ∧ main (serving_net broken_items) ["search_api.py"; "flux"]
    = ([ "Fetching latest model list from LemonData..."; "✗ 'model'" ],
       1%Z).
Proof.
  destruct (fetch_pricing_malformed_item (serving_net broken_items)
              broken_items) as [Hfetch Hmain].
  - apply serving_net_serves.
  - apply Exists_cons_tl, Exists_cons_hd. reflexivity.
  - split; [exact Hfetch|].
    apply (Hmain ["search_api.py"; "flux"] example_models).
    + discriminate.
    + discriminate.
    + apply pricing_down_models.
Defined.

Lemma fetch_pricing_last_item_witness :
  ∃ pricing,
    fetch_pricing (serving_net doubled_items) None = Ok pricing
    ∧ pricing !! "gpt-4o" = Some price_b
    ∧ pricing !! "flux-pro" = Some ∅
    ∧ ¬ is_Some (pricing !! "suno-v3").
Proof.
  destruct (fetch_pricing_last_item (serving_net doubled_items) None
              doubled_items) as (pricing & Hfetch & Hkeys & Hlast).
  - apply serving_net_serves.
  - repeat (apply List.Forall_cons; [by eexists|]). apply List.Forall_nil.
  - exists pricing. split_and!; [exact Hfetch| | |].
    + apply (Hlast
               [ {| item_model := Some "gpt-4o";
                    item_pricing := Some price_a |};
                 {| item_model := Some "flux-pro"; item_pricing := None |} ]
               {| item_model := Some "gpt-4o"; item_pricing := Some price_b |}
               [] "gpt-4o"); [reflexivity..|apply List.Forall_nil].
    + apply (Hlast
               [ {| item_model := Some "gpt-4o";
                    item_pricing := Some price_a |} ]
               {| item_model := Some "flux-pro"; item_pricing := None |}
               [ {| item_model := Some "gpt-4o";
                    item_pricing := Some price_b |} ]
               "flux-pro"); [reflexivity..|].
      apply List.Forall_cons; [discriminate|apply List.Forall_nil].
    + rewrite Hkeys. unfold doubled_items.
      rewrite !Exists_cons, Exists_nil. simpl.
      intros [?|[?|[?|?]]]; done.
Defined.

Lemma fetch_body_raises_witness :
  fetch_models garbled_net None = Raise (ValueError "Expecting value")
  ∧ fetch_pricing garbled_net None = Ok ∅.
Proof.
  split.
  - apply (proj1 (fetch_body_raises garbled_net None
                    (ValueError "Expecting value"))).
    eexists. split_and!; reflexivity.
  - apply (proj2 (fetch_body_raises garbled_net None
                    (RequestException "Expecting value"))).
    eexists. split_and!; reflexivity.
Defined.

Lemma classify_extension_witness :
  str_in (str_lower "whisper") (str_lower "Whisper-Video") = true
  ∧ category_rank "Whisper-Video" ≤ category_rank "whisper"
  ∧ get_model_category (PyStr "whisper") PyNone = Ok "🎤 Audio Processing"
  ∧ get_model_category (PyStr "Whisper-Video") PyNone
    = Ok "🎬 Video Generation".
Proof.
  assert (str_in (str_lower "whisper") (str_lower "Whisper-Video") = true)
    as Hin by (vm_compute; reflexivity).
  destruct (classify_extension "whisper" "Whisper-Video" PyNone Hin)
    as (Hrank & Ha & Hb).
  split_and!; [exact Hin|exact Hrank| |].
  - refine (eq_trans Ha _). vm_compute. reflexivity.
  - refine (eq_trans Hb _). vm_compute. reflexivity.
Defined.

Lemma enrich_models_first_bad_id_witness :
  enrich_models (example_models ++ numbered_model :: example_models)
    example_pricing
  = Raise (AttributeError "'int' object has no attribute 'lower'").
Proof.
  apply (enrich_models_first_bad_id example_models numbered_model
           example_models example_pricing (PyInt 7)).
  - apply example_models_ids.
  - vm_compute. reflexivity.
  - right. right. left. by exists 7%Z.
Defined.

Lemma enrich_model_keys_witness :
  ∃ m,
    enrich_model example_pricing free_model = Ok m
    ∧ is_Some (m !! "output_price")
    ∧ ¬ is_Some (m !! "description").
Proof.
  destruct (enrich_model_ok example_pricing free_model) as [m Hm].
  { eexists. vm_compute. reflexivity. }
  exists m. split_and!; [exact Hm| |].
  - apply (enrich_model_keys _ _ _ Hm).
    apply (bool_decide_unpack _). vm_compute. reflexivity.
  - rewrite (enrich_model_keys _ _ _ Hm). unfold enriched_keys.
    rewrite !elem_of_cons, elem_of_nil.
    intros [?|[?|[?|[?|[?|[?|[?|?]]]]]]]; done.
Defined.

Lemma enrich_models_pricing_local_witness :
  enrich_models example_models example_pricing
  = enrich_models example_models longer_pricing.
Proof.
  apply enrich_models_pricing_local. intros model s Hmodel Hid.
  unfold longer_pricing. symmetry. apply lookup_insert_ne. intros <-.
  unfold example_models in Hmodel.
  repeat (apply elem_of_cons in Hmodel as [->|Hmodel];
          [vm_compute in Hid; discriminate|]).
  by apply elem_of_nil in Hmodel.
Defined.

Lemma search_models_sublist_witness :
  ∃ results,
    search_models [example_gpt; example_flux; example_suno] (Some "FLUX")
      None = Ok results
    ∧ sublist results [example_gpt; example_flux; example_suno]
    ∧ Forall enriched_model results.
Proof.
  destruct (proj2 (search_models_sublist
                     [example_gpt; example_flux; example_suno]
                     (Some "FLUX") None) example_records_enriched)
    as (results & Hsearch & Hsub & Hwf).
  exists results. split_and!; [exact Hsearch| |exact Hwf].
  exact (proj1 (search_models_sublist
                  [example_gpt; example_flux; example_suno]
                  (Some "FLUX") None) results Hsearch).
Defined.

Lemma search_models_two_steps_witness :
  search_models [example_gpt; example_flux; example_suno] (Some "pro")
    (Some "image")
  = (narrowed ←! search_models [example_gpt; example_flux; example_suno]
                   (Some "pro") None;
     search_models narrowed None (Some "image")).
Proof.
  apply (proj2 (search_models_two_steps
                  [example_gpt; example_flux; example_suno]
                  (Some "pro") (Some "image"))).
  apply example_records_enriched.
Defined.

Lemma search_models_idempotent_witness :
  ∃ results,
    search_models [example_gpt; example_flux; example_suno] (Some "o")
      (Some "generation") = Ok results
    ∧ search_models results (Some "o") (Some "generation") = Ok results.
Proof.
  destruct (search_models_text_fields
              [example_gpt; example_flux; example_suno]
              (Some "o") (Some "generation") example_records_text)
    as (results & Hsearch & _).
  exists results. split; [exact Hsearch|].
  apply (search_models_idempotent
           [example_gpt; example_flux; example_suno]);
    [apply example_records_enriched|exact Hsearch].
Defined.

Lemma search_models_keyword_covers_category_witness :
  search_models [example_gpt; example_flux; example_suno] (Some "chat")
    (Some "chat")
  = search_models [example_gpt; example_flux; example_suno] None
      (Some "chat").
Proof.
  apply search_models_keyword_covers_category, example_records_enriched.
Defined.

Lemma search_models_keyword_short_circuit_witness :
  search_models [orphan_record] (Some "GPT") None = Ok [orphan_record]
  ∧ search_models [orphan_record] (Some "openai") None
    = Raise (AttributeError "'NoneType' object has no attribute 'lower'").
Proof.
  split.
  - apply (proj1 (search_models_keyword_short_circuit "GPT" ltac:(discriminate))).
    apply List.Forall_cons; [|apply List.Forall_nil].
    exists "gpt-4o". split; vm_compute; reflexivity.
  - apply (proj2 (search_models_keyword_short_circuit "openai"
                    ltac:(discriminate)) [] orphan_record [] "gpt-4o" PyNone).
    + apply List.Forall_nil.
    + vm_compute. reflexivity.
    + vm_compute. reflexivity.
    + vm_compute. reflexivity.
    + discriminate.
Defined.

Lemma format_model_info_missing_key_witness :
  format_model_info ∅ 1%Z = Raise (KeyError "id")
  ∧ format_model_info numbered_model 1%Z = Raise (KeyError "category")
  ∧ format_model_info (delete "owned_by" orphan_record) 1%Z
    = Raise (KeyError "owned_by")
  ∧ ∃ text, format_model_info orphan_record 1%Z = Ok text.
Proof.
  split_and!.
  - apply (proj1 (format_model_info_missing_key ∅ 1%Z)).
    vm_compute. reflexivity.
  - apply (proj1 (proj2 (format_model_info_missing_key numbered_model 1%Z))).
    + eexists. vm_compute. reflexivity.
    + vm_compute. reflexivity.
  - apply (proj1 (proj2 (proj2 (format_model_info_missing_key
                                  (delete "owned_by" orphan_record) 1%Z)))).
    + eexists. vm_compute. reflexivity.
    + eexists. vm_compute. reflexivity.
    + vm_compute. reflexivity.
  - apply (proj2 (proj2 (proj2 (format_model_info_missing_key
                                  orphan_record 1%Z))));
      eexists; vm_compute; reflexivity.
Defined.

Lemma enriched_record_prints_witness :
  ∃ m text line,
    enrich_model example_pricing (<["owned_by" := PyNone]> free_model) = Ok m
    ∧ format_model_info m 0%Z = Ok text
    ∧ price_str m = Ok line.
Proof.
  destruct (enrich_model_ok example_pricing
              (<["owned_by" := PyNone]> free_model)) as [m Hm].
  { eexists. vm_compute. reflexivity. }
  destruct (enriched_record_prints _ _ m 0%Z Hm) as (text & line & Ht & Hl).
  exists m, text, line. split_and!; [exact Hm|exact Ht|exact Hl].
Defined.

Lemma main_help_first_witness :
  main offline_net ["search_api.py"; "-h"; "video"] = (usage, 0%Z).
Proof. apply main_help_first. left. reflexivity. Defined.

Lemma main_empty_arguments_witness :
  main pricing_down_net ["search_api.py"; ""; ""]
  = main pricing_down_net [].
Proof. apply main_empty_arguments; right; reflexivity. Defined.

Lemma main_two_requests_witness :
  main strict_net ["search_api.py"; "flux"]
  = main pricing_down_net ["search_api.py"; "flux"].
Proof.
  apply main_two_requests.
  - unfold strict_net. cbn [get_models]. by rewrite decide_True.
  - unfold strict_net. cbn [get_pricing]. by rewrite decide_True.
Defined.

Lemma group_add_by_category_witness :
  ∃ categories,
    fold_r group_add ∅ [example_gpt; example_flux; example_suno]
    = Ok categories
    ∧ default [] (categories !! "🎨 Image Generation")
      = List.filter (has_category "🎨 Image Generation")
          [example_gpt; example_flux; example_suno]
    ∧ ¬ is_Some (categories !! "🎬 Video Generation").
Proof.
  destruct (group_add_by_category [example_gpt; example_flux; example_suno]
              example_records_text) as (categories & Hfold & Hlists & Hkeys).
  exists categories. split_and!; [exact Hfold|apply Hlists|].
  rewrite Hkeys, !Exists_cons, Exists_nil.
  intros [Hc|[Hc|[Hc|[]]]]; vm_compute in Hc; discriminate.
Defined.


Lemma empty_net_models : fetch_models empty_net None = Ok [].
Proof.
  unfold fetch_models, empty_net, except_request, raise_for_status.
  cbn [get_models bind json status_code error_text]. by rewrite lookup_empty.
Qed.

Lemma empty_net_pricing : fetch_pricing empty_net None = Ok ∅.
Proof.
  unfold fetch_pricing, empty_net, except_request, raise_for_status.
  cbn [get_pricing bind json status_code error_text].
  by rewrite lookup_empty.
Qed.

Lemma main_empty_catalog_witness :
  main empty_net ["search_api.py"]
  = ([ "Fetching latest model list from LemonData...";
       "✓ Success, found 0 models"; "";
       "Model category statistics:"; "";
       "API Endpoint: /v1/chat/completions"; "";
       "Search for specific models using keywords, e.g.:";
       "  python search_api.py GPT";
       "  python search_api.py claude";
       "  python search_api.py flux" ], 0%Z)
  ∧ main empty_net ["search_api.py"; "gpt"]
    = ([ "Fetching latest model list from LemonData...";
         "✓ Success, found 0 models"; "";
         "Search results: 0 matching models"; "";
         "No matching models found, try different keywords"; "";
         "Available categories:" ], 0%Z).
Proof.
  apply (main_empty_catalog empty_net ∅ "search_api.py" "gpt").
  - apply empty_net_models.
  - apply empty_net_pricing.
  - discriminate.
  - discriminate.
  - discriminate.
Defined.

(** ** The status of the model list *)

